(** * karmy-gold: scoring, portfolio selection and risk monitoring

  A shallow embedding of the algorithmic core of the ETF strategy
  pipeline ([etf_scoring.py], [etf_list.py], [position.py], [config.py])
  and the properties of it that the specification states.

  Numbers.  Python's [float] and NumPy's [float64] are IEEE 754 binary64;
  they are embedded as Rocq's primitive floats, so that division by zero,
  infinities and NaN behave as they do in the program.  Integer literals
  that the program mixes into float arithmetic ([max(x, 0)]) are written as
  the float of the same value.

  Exceptions.  Code that can raise returns a [result]; a [try/except
  Exception] block is [try_except].

  Tables.  A [dict] whose iteration order matters is an association list;
  a [dict] or a DataFrame row that is only looked up is a [gmap]. *)

From Stdlib Require Import ZArith List String Ascii Bool Lia DecimalString.
From Stdlib Require Import PrimFloat FloatOps FloatAxioms SpecFloat.
From stdpp Require Import base option list gmap strings.

Set Warnings "-inexact-float,-register-all".

(** ** Python values, builtins and exceptions *)

Module Py.

Inductive exn : Type :=
| KeyError (key : string)
| IndexError
| ValueError
| TypeError
| OverflowError
| ZeroDivisionError
| AttributeError
| NameError (name : string).

Inductive result (A : Type) : Type :=
| Ok (a : A)
| Raise (e : exn).
Arguments Ok {A} a.
Arguments Raise {A} e.

Definition bind {A B} (c : result A) (k : A -> result B) : result B :=
  match c with
  | Ok a => k a
  | Raise e => Raise e
  end.

(** [try: body / except Exception as e: handler(e)] *)
Definition try_except {A} (body : result A) (handler : exn -> result A)
  : result A :=
  match body with
  | Ok a => Ok a
  | Raise e => handler e
  end.

(** [try: return body / except Exception: return default] *)
Definition recover {A} (body : result A) (default : A) : A :=
  match body with
  | Ok a => a
  | Raise _ => default
  end.

(** [str(e)] for the exceptions of the model.  The text of a [KeyError] is
    the key between quotes (a key without quotes or escapes of its own), that
    of a [NameError] names the name; of the others only the existence
    matters. *)
Definition str_exn (e : exn) : string :=
  match e with
  | KeyError k => "'" ++ k ++ "'"
  | NameError name => "name '" ++ name ++ "' is not defined"
  | IndexError => "index out of bounds"
  | ValueError => "value error"
  | TypeError => "type error"
  | OverflowError => "int too large to convert to float"
  | ZeroDivisionError => "float division by zero"
  | AttributeError => "attribute error"
  end.

(** [s.split(sep)] for a one-character separator, and [s.strip()] for the
    ASCII white space (the program's codes are ASCII). *)
Fixpoint split (sep : ascii) (s : string) : list string :=
  match s with
  | EmptyString => [EmptyString]
  | String c s' =>
      if Ascii.eqb c sep then EmptyString :: split sep s'
      else match split sep s' with
           | piece :: rest => String c piece :: rest
           | [] => [String c EmptyString]
           end
  end.

Definition isspace (c : ascii) : bool :=
  let n := nat_of_ascii c in
  (Nat.leb 9 n && Nat.leb n 13) || (Nat.leb 28 n && Nat.leb n 32).

Fixpoint lstrip (s : string) : string :=
  match s with
  | EmptyString => EmptyString
  | String c s' => if isspace c then lstrip s' else s
  end.

Fixpoint rstrip (s : string) : string :=
  match s with
  | EmptyString => EmptyString
  | String c s' =>
      match rstrip s' with
      | EmptyString => if isspace c then EmptyString else String c EmptyString
      | r => String c r
      end
  end.

Definition strip (s : string) : string := rstrip (lstrip s).

(** [str(z)] for an [int]. *)
Definition str_int (z : Z) : string := NilZero.string_of_int (Z.to_int z).

Local Open Scope float_scope.

(** The builtin [max(a, b)] keeps [a] unless [b > a]; [min(a, b)] keeps
    [a] unless [b < a].  With a NaN argument the comparison is false, so
    the first argument is returned. *)
Definition max (a b : float) : float := if a <? b then b else a.
Definition min (a b : float) : float := if b <? a then b else a.

(** [sum(xs)]: left to right, starting from 0. *)
Definition sum (xs : list float) : float := fold_left PrimFloat.add xs 0.

(** [a / b].  Between two Python floats a zero divisor raises; as soon as
    one operand is a NumPy [float64] the quotient is the IEEE one. *)
Definition truediv (numpy : bool) (a b : float) : result float :=
  if negb numpy && (b =? 0) then Raise ZeroDivisionError else Ok (a / b).

(** The values the configuration tables and the result dictionaries hold. *)
Inductive value : Type :=
| VInt (z : Z)
| VFloat (x : float)
| VStr (s : string)
| VList (l : list value).

(** The binary64 nearest to an integer. *)
Definition nearest_float (z : Z) : float :=
  SF2Prim (binary_normalize prec emax z 0 false).

(** [float(z)] for an [int]: the nearest binary64, or [OverflowError]. *)
Definition float_of_int (z : Z) : result float :=
  let x := nearest_float z in
  if is_infinity x then Raise OverflowError else Ok x.

(** A dictionary that is only looked up by key. *)
Abbreviation dict := (gmap string value).

(** [d[k]] *)
Definition getitem {V} (d : gmap string V) (k : string) : result V :=
  match d !! k with
  | Some v => Ok v
  | None => Raise (KeyError k)
  end.

(** The float operand that [v * c] computes with when [c] is a float: a
    float is taken as it is, an [int] is converted, anything else is a
    [TypeError]. *)
Definition to_float (v : value) : result float :=
  match v with
  | VFloat x => Ok x
  | VInt z => float_of_int z
  | VStr _ | VList _ => Raise TypeError
  end.

(** [v * c] for a float [c]. *)
Definition mul_float (v : value) (c : float) : result float :=
  match to_float v with
  | Ok x => Ok (x * c)
  | Raise e => Raise e
  end.

(** A dictionary whose iteration order is observed ([values()], [items()]):
    the entries in insertion order.  Assigning to a key that is present
    keeps its place; the augmented assignment [d[k] += c] reads [d[k]]
    first and so raises [KeyError] on a missing key. *)
Fixpoint odict_get {V} (d : list (string * V)) (k : string) : result V :=
  match d with
  | [] => Raise (KeyError k)
  | (k', v) :: d' => if String.eqb k' k then Ok v else odict_get d' k
  end.

Fixpoint odict_set {V} (d : list (string * V)) (k : string) (v : V)
  : list (string * V) :=
  match d with
  | [] => [(k, v)]
  | (k', v') :: d' =>
      if String.eqb k' k then (k', v) :: d' else (k', v') :: odict_set d' k v
  end.

Definition odict_iadd (d : list (string * float)) (k : string) (c : float)
  : result (list (string * float)) :=
  match odict_get d k with
  | Ok v => Ok (odict_set d k (v + c))
  | Raise e => Raise e
  end.

Definition odict_isub (d : list (string * float)) (k : string) (c : float)
  : result (list (string * float)) :=
  match odict_get d k with
  | Ok v => Ok (odict_set d k (v - c))
  | Raise e => Raise e
  end.

Definition values {V} (d : list (string * V)) : list V := map snd d.

End Py.

#[global] Instance result_ret : MRet Py.result := @Py.Ok.
#[global] Instance result_bind : MBind Py.result := fun A B k c => Py.bind c k.

(** ** NumPy and pandas

    A [Series] is the list of its values, NaN standing for a missing value.
    A [DataFrame] is its number of rows and its columns by name; in a
    well-formed frame every column has that many values, and the date
    column holds its time stamps as numbers.  Reductions add
    from left to right; NumPy's own order of summation is not fixed by its
    interface, and the properties below are evaluated on values for which
    the order makes no difference. *)

Module Np.
Local Open Scope float_scope.

(** [np.rint]: to the nearest integer, ties to even. *)
Definition rint (x : float) : float :=
  if abs x <? 0x1p52 then
    if x =? 0 then x
    else if x <? 0 then - ((- x + 0x1p52) - 0x1p52)
    else (x + 0x1p52) - 0x1p52
  else x.

Fixpoint pow10 (decimals : nat) : float :=
  match decimals with
  | O => 1
  | S d => pow10 d * 10
  end.

(** [round(x, decimals)] on a [float64]: scale, [rint], scale back.  The
    same function stands for the builtin [round] on a Python float, which
    rounds the exact decimal expansion and can differ from it in the last
    place. *)
Definition round (x : float) (decimals : nat) : float :=
  rint (x * pow10 decimals) / pow10 decimals.

(** [np.sum] of an array: NaN is not skipped. *)
Definition sum (xs : list float) : float := fold_left PrimFloat.add xs 0.

(** [np.mean] and [np.std] (population standard deviation) of a list. *)
Definition mean (xs : list float) : float :=
  sum xs / Py.nearest_float (Z.of_nat (length xs)).

Definition std (xs : list float) : float :=
  let m := mean xs in
  sqrt (mean (map (fun x => (x - m) * (x - m)) xs)).

(** The transcendental functions of NumPy that the scores use.  They are
    not computed here; the scores are stated for any implementation. *)
Class Libm : Type := {
  exp : float -> float;
  log : float -> float;
  power : float -> float -> float
}.

End Np.

Module Pd.
Local Open Scope float_scope.

Abbreviation Series := (list float).

Definition notna (x : float) : bool := negb (is_nan x).
Definition dropna (s : Series) : Series := List.filter notna s.
Definition count (s : Series) : nat := length (dropna s).
Definition of_nat (n : nat) : float := Py.nearest_float (Z.of_nat n).

(** [s.sum()], [s.mean()], [s.std()] (sample standard deviation), all
    skipping NaN. *)
Definition sum (s : Series) : float := Np.sum (dropna s).

Definition mean (s : Series) : float :=
  if Nat.eqb (count s) 0 then nan else sum s / of_nat (count s).

Definition var (s : Series) : float :=
  if Nat.leb (count s) 1 then nan
  else
    let avg := sum s / of_nat (count s) in
    Np.sum (map (fun x => (avg - x) * (avg - x)) (dropna s))
    / of_nat (count s - 1).

Definition std (s : Series) : float := sqrt (var s).

(** [s.max()]: the largest value that is not NaN, NaN when there is none. *)
Definition max (s : Series) : float :=
  match dropna s with
  | [] => nan
  | x :: xs => fold_left (fun m y => if m <? y then y else m) xs x
  end.

(** [s.diff()] and [s.pct_change()]: the first entry is NaN. *)
Fixpoint pairwise (f : float -> float -> float) (prev : float) (s : Series)
  : Series :=
  match s with
  | [] => []
  | x :: s' => f prev x :: pairwise f x s'
  end.

Definition diff (s : Series) : Series :=
  match s with
  | [] => []
  | x :: s' => nan :: pairwise (fun prev cur => cur - prev) x s'
  end.

Definition pct_change (s : Series) : Series :=
  match s with
  | [] => []
  | x :: s' => nan :: pairwise (fun prev cur => cur / prev - 1) x s'
  end.

Definition abs (s : Series) : Series := map PrimFloat.abs s.

(** [s.cumprod()] and [s.cummax()]: a NaN entry stays NaN and is skipped by
    the running value. *)
Fixpoint cumulate (f : float -> float -> float) (acc : option float)
    (s : Series) : Series :=
  match s with
  | [] => []
  | x :: s' =>
      if is_nan x then nan :: cumulate f acc s'
      else
        let a := match acc with None => x | Some a => f a x end in
        a :: cumulate f (Some a) s'
  end.

Definition cumprod (s : Series) : Series := cumulate PrimFloat.mul None s.

Definition cummax (s : Series) : Series :=
  cumulate (fun m y => if m <? y then y else m) None s.

(** [s.iloc[i]]: a negative [i] counts from the end. *)
Definition iloc (s : Series) (i : Z) : Py.result float :=
  let n := Z.of_nat (length s) in
  let j := if (i <? 0)%Z then (n + i)%Z else i in
  if ((j <? 0) || (n <=? j))%Z then Py.Raise Py.IndexError
  else match s !! Z.to_nat j with
       | Some x => Py.Ok x
       | None => Py.Raise Py.IndexError
       end.

Definition tail_series (n : nat) (s : Series) : Series :=
  skipn (length s - n) s.

Record DataFrame : Type := mk_df {
  index : nat;
  data : gmap string Series
}.

(** [pd.DataFrame()] *)
Definition no_data : DataFrame := mk_df 0 ∅.

Definition len (df : DataFrame) : nat := index df.

(** [df.empty]: no rows or no columns. *)
Definition empty (df : DataFrame) : bool :=
  Nat.eqb (index df) 0 || bool_decide (data df = ∅).

(** [c in df.columns] *)
Definition has_column (df : DataFrame) (c : string) : bool :=
  match data df !! c with
  | Some _ => true
  | None => false
  end.

(** [df[c]] *)
Definition col (df : DataFrame) (c : string) : Py.result Series :=
  Py.getitem (data df) c.

(** [df[c] = s]: the frame object itself is updated. *)
Definition set_col (df : DataFrame) (c : string) (s : Series) : DataFrame :=
  mk_df (index df) (<[c := s]> (data df)).

(** [df.tail(n)]: a new frame. *)
Definition tail (n : nat) (df : DataFrame) : DataFrame :=
  mk_df (Nat.min n (index df)) (tail_series n <$> data df).

(** [df.sort_values(c)]: a new frame, its rows ascending by column [c], NaN
    keys last.  Rows of equal key keep their order here; pandas' default
    sort leaves their order unspecified. *)
Definition sorts_after (x y : float) : bool :=
  (y <? x) || (is_nan x && notna y).

Fixpoint insert_row (key : nat -> float) (i : nat) (order : list nat)
  : list nat :=
  match order with
  | [] => [i]
  | j :: order' =>
      if sorts_after (key i) (key j) then j :: insert_row key i order'
      else i :: j :: order'
  end.

Definition row_order (keys : Series) : list nat :=
  fold_right (insert_row (fun i => nth i keys nan)) [] (seq 0 (length keys)).

Definition reorder (order : list nat) (s : Series) : Series :=
  map (fun i => nth i s nan) order.

Definition sort_values (df : DataFrame) (c : string) : Py.result DataFrame :=
  match data df !! c with
  | Some keys => Py.Ok (mk_df (index df) (reorder (row_order keys) <$> data df))
  | None => Py.Raise (Py.KeyError c)
  end.

(** [a - b] on two series of one frame, entry by entry. *)
Fixpoint sub (a b : Series) : Series :=
  match a, b with
  | x :: a', y :: b' => (x - y) :: sub a' b'
  | _, _ => []
  end.

(** [a.corr(b)]: Pearson's coefficient over the rows where both are
    present, as [np.corrcoef] computes it (covariance divided by both
    standard deviations, clipped to [[-1, 1]]); NaN without such a row. *)
Fixpoint complete_pairs (a b : Series) : list (float * float) :=
  match a, b with
  | x :: a', y :: b' =>
      if notna x && notna y then (x, y) :: complete_pairs a' b'
      else complete_pairs a' b'
  | _, _ => []
  end.

Definition corr (a b : Series) : float :=
  let ps := complete_pairs a b in
  let n := length ps in
  if Nat.eqb n 0 then nan
  else
    let xs := map fst ps in
    let ys := map snd ps in
    let mx := Np.sum xs / of_nat n in
    let my := Np.sum ys / of_nat n in
    let dof := of_nat (n - 1) in
    let cxy := Np.sum (map (fun p => (fst p - mx) * (snd p - my)) ps) / dof in
    let cxx := Np.sum (map (fun x => (x - mx) * (x - mx)) xs) / dof in
    let cyy := Np.sum (map (fun y => (y - my) * (y - my)) ys) / dof in
    let r := cxy / sqrt cxx / sqrt cyy in
    if r <? -1 then -1 else if 1 <? r then 1 else r.

End Pd.

(** ** config.py *)

Module Config.
Local Open Scope string_scope.
Local Open Scope float_scope.

(** The tables of [class Config] that the embedded functions read. *)
Record t : Type := mk {
  BASE_SCORE_WEIGHTS : list (string * float);
  STRATEGY_PARAMETERS : gmap string Py.dict;
  ETF_SELECTION_LAYERS : gmap string Py.dict
}.

Definition dict_of (kvs : list (string * Py.value)) : Py.dict :=
  list_to_map kvs.

Definition strategy
    (min_fund_size min_avg_volume : float) (max_holdings : Z)
    (min_correlation : float) (ma_period confirm_days : Z)
    (initial_position : float) (add_position : list float)
    (stop_loss_ratio max_position max_drawdown_warning : float)
    (risk_level : string) : Py.dict :=
  dict_of
    [ ("min_fund_size", Py.VFloat min_fund_size);
      ("min_avg_volume", Py.VFloat min_avg_volume);
      ("max_holdings", Py.VInt max_holdings);
      ("min_correlation", Py.VFloat min_correlation);
      ("ma_period", Py.VInt ma_period);
      ("confirm_days", Py.VInt confirm_days);
      ("initial_position", Py.VFloat initial_position);
      ("add_position", Py.VList (map Py.VFloat add_position));
      ("stop_loss_ratio", Py.VFloat stop_loss_ratio);
      ("max_position", Py.VFloat max_position);
      ("max_drawdown_warning", Py.VFloat max_drawdown_warning);
      ("risk_level", Py.VStr risk_level) ].

(** The values of the repository's [config.py]. *)
Definition default : t := {|
  BASE_SCORE_WEIGHTS :=
    [ ("liquidity", 0.15); ("risk", 0.25); ("return", 0.20);
      ("tracking", 0.20); ("premium", 0.10); ("stability", 0.10) ];
  STRATEGY_PARAMETERS :=
    list_to_map
      [ ("稳健仓",
         strategy 10.0 5000.0 4 0.7 20 3 0.3 [0.2; 0.1] 0.05 0.7 0.10 "low");
        ("激进仓",
         strategy 2.0 1000.0 3 0.8 20 2 0.2 [0.15] 0.08 0.6 0.15 "medium");
        ("套利仓",
         strategy 5.0 3000.0 5 0.6 10 1 0.1 [0.05] 0.02 0.3 0.05 "high") ];
  ETF_SELECTION_LAYERS :=
    list_to_map
      [ ("base",
         dict_of [ ("min_fund_size", Py.VFloat 10.0);
                   ("min_avg_volume", Py.VFloat 5000.0);
                   ("min_listing_days", Py.VInt 365);
                   ("max_tracking_error", Py.VFloat 0.05) ]);
        ("opportunity",
         dict_of [ ("min_fund_size", Py.VFloat 2.0);
                   ("min_avg_volume", Py.VFloat 1000.0);
                   ("min_listing_days", Py.VInt 180);
                   ("max_tracking_error", Py.VFloat 0.08) ]);
        ("growth",
         dict_of [ ("min_fund_size", Py.VFloat 0.5);
                   ("min_avg_volume", Py.VFloat 300.0);
                   ("max_listing_days", Py.VInt 180);
                   ("min_size_growth", Py.VFloat 0.3) ]);
        ("sector_special",
         dict_of [ ("min_fund_size", Py.VFloat 3.0);
                   ("min_avg_volume", Py.VFloat 800.0);
                   ("sector_focus",
                    Py.VList [Py.VStr "科技"; Py.VStr "医药";
                              Py.VStr "新能源"]) ]) ]
|}.

(** [COLUMN_NAME_MAPPING]: the column names of the daily bars. *)
Definition DATE_COL : string := "日期".
Definition CLOSE_COL : string := "收盘".
Definition AMOUNT_COL : string := "成交额".
Definition VOLUME_COL : string := "成交量".
Definition TURNOVER_COL : string := "换手率".
Definition INDEX_CLOSE_COL : string := "指数收盘".
Definition TRACKING_ERROR_COL : string := "跟踪误差".
Definition BID_ASK_SPREAD_COL : string := "买卖价差".
Definition BID_VOLUME_COL : string := "买一量".
Definition ASK_VOLUME_COL : string := "卖一量".

End Config.

(** ** etf_scoring.py *)

Module etf_scoring.
Local Open Scope string_scope.
Local Open Scope float_scope.

(** [adjust_score_weights(market_condition)] *)
Definition adjust_score_weights (cfg : Config.t) (market_condition : string)
  : Py.result (list (string * float)) :=
  let weights := Config.BASE_SCORE_WEIGHTS cfg in
  weights ←
    (if String.eqb market_condition "bear" then
       weights ← Py.odict_iadd weights "risk" 0.1;
       weights ← Py.odict_isub weights "return" 0.05;
       Py.odict_iadd weights "premium" 0.05
     else if String.eqb market_condition "bull" then
       weights ← Py.odict_iadd weights "return" 0.05;
       weights ← Py.odict_isub weights "risk" 0.05;
       Py.odict_isub weights "tracking" 0.05
     else mret weights);
  let total := Py.sum (Py.values weights) in
  mret (map (fun kv => (fst kv, snd kv / total)) weights).

(** The functions below that assign a column to the frame they are given
    return, next to their value, that frame as the call leaves it. *)

(** [calculate_volatility(df)] *)
Definition calculate_volatility (df : Pd.DataFrame) : float * Pd.DataFrame :=
  match Pd.data df !! Config.CLOSE_COL with
  | None => (0, df)
  | Some close =>
      let df := Pd.set_col df "daily_return" (Pd.pct_change close) in
      let volatility := Pd.std (Pd.pct_change close) * sqrt 252 in
      (Np.round volatility 4, df)
  end.

(** [calculate_max_drawdown(df)] *)
Definition calculate_max_drawdown (df : Pd.DataFrame)
  : float * Pd.DataFrame :=
  match Pd.data df !! Config.CLOSE_COL with
  | None => (0, df)
  | Some close =>
      let cum_return :=
        Pd.cumprod (map (fun r => 1 + r) (Pd.pct_change close)) in
      let df := Pd.set_col df "cum_return" cum_return in
      let drawdown :=
        map (fun cm => 1 - fst cm / snd cm)
            (combine cum_return (Pd.cummax cum_return)) in
      let df := Pd.set_col df "drawdown" drawdown in
      (Np.round (Pd.max drawdown) 4, df)
  end.

(** [calculate_tracking_error(df)] *)
Definition calculate_tracking_error (df : Pd.DataFrame)
  : float * Pd.DataFrame :=
  match Pd.data df !! Config.TRACKING_ERROR_COL with
  | Some tracking_error => (Pd.std tracking_error, df)
  | None =>
      match Pd.data df !! Config.INDEX_CLOSE_COL,
            Pd.data df !! Config.CLOSE_COL with
      | Some index_close, Some close =>
          let df := Pd.set_col df "tracking_error" (Pd.sub close index_close) in
          (Pd.std (Pd.sub close index_close), df)
      | _, _ => (0.05, df)
      end
  end.

(** The fund-size cell of a row of the ETF list: a text with the unit it
    names and the number [float()] reads from the rest ([None] when that
    raises [ValueError]), a number (a Python or a NumPy float), or anything
    else. *)
Inductive size_unit : Type := Yi | Wan.

Inductive size_cell : Type :=
| SizeText (unit : option size_unit) (parsed : option float)
| SizeNumber (numpy : bool) (x : float)
| SizeOther.

(** The size a cell stands for, in 1e8 currency units, with its run-time
    type ([true] for a NumPy float). *)
Definition cell_size (c : size_cell) : Py.result (bool * float) :=
  match c with
  | SizeText (Some Yi) (Some x) => mret (false, x)
  | SizeText (Some Wan) (Some x) => mret (false, x / 10000)
  | SizeText (Some _) None => Py.Raise Py.ValueError
  | SizeText None _ => mret (false, 0)
  | SizeNumber numpy x => mret (numpy, x)
  | SizeOther => mret (false, 0)
  end.

Section WithEnvironment.

(** [load_all_etf_list()], reduced to the code and the fund-size cell of
    each row. *)
Variable all_etf_list : list (string * size_cell).

Context {libm : Np.Libm}.

Definition etf_row (etf_code : string) : option size_cell :=
  snd <$> List.find (fun row => String.eqb (fst row) etf_code) all_etf_list.

(** [get_etf_basic_info(etf_code)[0]] *)
Definition get_etf_basic_info_size (etf_code : string) : bool * float :=
  match etf_row etf_code with
  | Some c => Py.recover (cell_size c) (false, 0)
  | None => (false, 0)
  end.

(** [get_etf_size_history(etf_code)] *)
Definition get_etf_size_history (etf_code : string) : bool * list float :=
  match etf_row etf_code with
  | Some c =>
      Py.recover
        (current_size ← cell_size c;
         mret (fst current_size,
               map (fun i => snd current_size * (0.95 + Pd.of_nat i * 0.01))
                   (seq 0 8)))
        (false, [])
  | None => (false, [])
  end.

(** [calculate_sharpe_ratio(df)] *)
Definition calculate_sharpe_ratio (df : Pd.DataFrame)
  : float * Pd.DataFrame :=
  match Pd.data df !! Config.CLOSE_COL with
  | None => (0, df)
  | Some close =>
      let df := Pd.set_col df "daily_return" (Pd.pct_change close) in
      (Py.recover
         (last ← Pd.iloc close (-1);
          first ← Pd.iloc close 0;
          let annual_return :=
            Np.power (last / first) (252 / Pd.of_nat (Pd.len df)) - 1 in
          let volatility := Pd.std (Pd.pct_change close) * sqrt 252 in
          let risk_free_rate := 0 in
          let sharpe_ratio :=
            if 0 <? volatility
            then (annual_return - risk_free_rate) / volatility
            else 0 in
          mret (Np.round sharpe_ratio 4))
         0,
       df)
  end.

(** [calculate_liquidity_score(df)] *)
Definition calculate_liquidity_score (df : Pd.DataFrame) : float :=
  let volume_score :=
    match Pd.data df !! Config.AMOUNT_COL with
    | Some amount =>
        let avg_volume := Pd.mean amount / 10000 in
        Py.min (Py.max (avg_volume * 0.01 + 50) 0) 100
    | None => 50
    end in
  let spread_score :=
    match Pd.data df !! Config.BID_ASK_SPREAD_COL with
    | Some spreads =>
        let spread := Pd.mean spreads in
        Py.max 0 (100 - spread * 10000)
    | None => 60
    end in
  let bid_volume :=
    match Pd.data df !! Config.BID_VOLUME_COL with
    | Some v => Pd.mean v
    | None => 0
    end in
  let ask_volume :=
    match Pd.data df !! Config.ASK_VOLUME_COL with
    | Some v => Pd.mean v
    | None => 0
    end in
  let depth_score :=
    if (0 <? bid_volume) && (0 <? ask_volume) then
      let depth := (bid_volume + ask_volume) / 2 in
      Py.min (Py.max (Np.log (depth + 1) * 20) 0) 100
    else 50 in
  let turnover_score :=
    match Pd.data df !! Config.TURNOVER_COL with
    | Some turnover =>
        let avg_turnover := Pd.mean turnover in
        Py.min (Py.max (avg_turnover * 1000) 0) 100
    | None => 50
    end in
  let liquidity_score :=
    volume_score * 0.4 + spread_score * 0.3 + depth_score * 0.2
    + turnover_score * 0.1 in
  Np.round liquidity_score 2.

(** [calculate_risk_score(df)] *)
Definition calculate_risk_score (df : Pd.DataFrame) : float * Pd.DataFrame :=
  let '(volatility, df) := calculate_volatility df in
  let volatility_score := Py.max 0 (100 - volatility * 100) in
  let '(sharpe_ratio, df) := calculate_sharpe_ratio df in
  let sharpe_score := Py.min (Py.max (sharpe_ratio * 50) 0) 100 in
  let '(max_drawdown, df) := calculate_max_drawdown df in
  let drawdown_score := Py.max 0 (100 - max_drawdown * 500) in
  let risk_score :=
    volatility_score * 0.4 + sharpe_score * 0.4 + drawdown_score * 0.2 in
  (Np.round risk_score 2, df).

(** [calculate_return_score(df)] *)
Definition calculate_return_score (df : Pd.DataFrame) : float :=
  if Pd.has_column df Config.CLOSE_COL && Pd.has_column df Config.DATE_COL
  then
    Py.recover
      (close ← Pd.col df Config.CLOSE_COL;
       last ← Pd.iloc close (-1);
       first ← Pd.iloc close 0;
       let return_30d := (last / first - 1) * 100 in
       let x := return_30d in
       let k := 0.2 in
       let x0 := 2.5 in
       let sigmoid_value := 1 / (1 + Np.exp (- k * (x - x0))) in
       let return_score := sigmoid_value * 150 in
       mret (Py.min (Py.max return_score 0) 100))
      0
  else 0.

(** [calculate_sentiment_score(df)] *)
Definition calculate_sentiment_score (df : Pd.DataFrame) : float :=
  match Pd.data df !! Config.VOLUME_COL with
  | Some volume =>
      Py.recover
        (sentiment_score ←
           (if Nat.leb 5 (Pd.len df) then
              last ← Pd.iloc volume (-1);
              before ← Pd.iloc volume (-5);
              let volume_change := (last / before - 1) * 100 in
              let k := 0.1 in
              let x0 := 0 in
              let sigmoid_value :=
                1 / (1 + Np.exp (- k * (volume_change - x0))) in
              mret (sigmoid_value * 100 + 50)
            else mret 50);
         mret (Py.min (Py.max sentiment_score 0) 100))
        50
  | None => 50
  end.

(** [calculate_tracking_score(etf_code, df)] *)
Definition tracking_score_of
    (etf_code : string) (tracking_error : float) (df : Pd.DataFrame)
  : float :=
  let correlation :=
    match Pd.data df !! Config.INDEX_CLOSE_COL,
          Pd.data df !! Config.CLOSE_COL with
    | Some index_close, Some close =>
        Pd.corr (Pd.pct_change close) (Pd.pct_change index_close)
    | _, _ => 0.8
    end in
  let etf_size := get_etf_basic_info_size etf_code in
  Py.recover
    (size_weight ←
       Py.truediv (fst etf_size) 1 (1 + snd etf_size / 10);
     let error_score := Py.max 0 (100 - tracking_error * 1000) in
     let correlation_score := Py.min (correlation * 100) 100 in
     let tracking_score :=
       (error_score * 0.6 + correlation_score * 0.4) * (1 + size_weight) in
     mret (Py.min (Py.max tracking_score 0) 100))
    60.

Definition calculate_tracking_score (etf_code : string) (df : Pd.DataFrame)
  : float * Pd.DataFrame :=
  match Pd.data df !! Config.TRACKING_ERROR_COL with
  | Some tracking_error =>
      (tracking_score_of etf_code (Pd.std tracking_error) df, df)
  | None =>
      match Pd.data df !! Config.INDEX_CLOSE_COL,
            Pd.data df !! Config.CLOSE_COL with
      | Some index_close, Some close =>
          let df := Pd.set_col df "tracking_error" (Pd.sub close index_close) in
          (tracking_score_of etf_code (Pd.std (Pd.sub close index_close)) df,
           df)
      | _, _ => (60, df)
      end
  end.

(** [calculate_stability_score(etf_code)] *)
Definition calculate_stability_score (etf_code : string) : float :=
  let '(numpy, size_history) := get_etf_size_history etf_code in
  match size_history with
  | [] => 50
  | first :: _ =>
      Py.recover
        (size_growth ←
           Py.truediv numpy (List.last size_history first - first) first;
         let size_volatility := Np.std size_history / Np.mean size_history in
         let growth_score := Py.min (Py.max (size_growth * 100) 0) 100 in
         let stability_score := Py.max 0 (100 - size_volatility * 500) in
         let stability_score := growth_score * 0.4 + stability_score * 0.6 in
         mret (Py.min (Py.max stability_score 0) 100))
        50
  end.

(** [calculate_etf_score(etf_code, df, score_weights)].  The second
    component is the caller's frame after the call.  When the frame has a
    date column the function works on the sorted copy; otherwise [df] stays
    the caller's frame, and the tracking score assigns to it. *)
Definition calculate_etf_score
    (cfg : Config.t) (etf_code : string) (df : Pd.DataFrame)
    (score_weights : option (list (string * float)))
  : float * Pd.DataFrame :=
  let score_weights :=
    match score_weights with
    | Some w => w
    | None => Config.BASE_SCORE_WEIGHTS cfg
    end in
  let has_date := Pd.has_column df Config.DATE_COL in
  match (if has_date then Pd.sort_values df Config.DATE_COL else mret df) with
  | Py.Raise _ => (0, df)
  | Py.Ok work =>
      if Nat.ltb (Pd.len work) 30 then (0, df)
      else
        let recent_30d := Pd.tail 30 work in
        let liquidity_score := calculate_liquidity_score recent_30d in
        let '(risk_score, recent_30d) := calculate_risk_score recent_30d in
        let return_score := calculate_return_score recent_30d in
        let sentiment_score := calculate_sentiment_score recent_30d in
        let '(tracking_score, work) :=
          calculate_tracking_score etf_code work in
        let stability_score := calculate_stability_score etf_code in
        (Py.recover
           (w_liquidity ← Py.odict_get score_weights "liquidity";
            w_risk ← Py.odict_get score_weights "risk";
            w_return ← Py.odict_get score_weights "return";
            w_tracking ← Py.odict_get score_weights "tracking";
            w_premium ← Py.odict_get score_weights "premium";
            w_stability ← Py.odict_get score_weights "stability";
            let total_score :=
              liquidity_score * w_liquidity + risk_score * w_risk
              + return_score * w_return + tracking_score * w_tracking
              + sentiment_score * w_premium
              + stability_score * w_stability in
            mret (Np.round total_score 2))
           0,
         if has_date then df else work)
  end.

End WithEnvironment.

End etf_scoring.

(** ** etf_list.py *)

Module etf_list.
Local Open Scope string_scope.
Local Open Scope float_scope.

(** [get_dynamic_selection_thresholds(market_condition)].  The function
    works on a copy of [Config.ETF_SELECTION_LAYERS["base"]]; the in-place
    products are evaluated in the order of the source, and the entries are
    stored back as floats. *)
Definition get_dynamic_selection_thresholds
    (cfg : Config.t) (market_condition : string) : Py.result Py.dict :=
  base_params ← Py.getitem (Config.ETF_SELECTION_LAYERS cfg) "base";
  if String.eqb market_condition "bull" then
    size ← Py.getitem base_params "min_fund_size";
    size ← Py.mul_float size 1.2;
    let base_params := <["min_fund_size" := Py.VFloat size]> base_params in
    volume ← Py.getitem base_params "min_avg_volume";
    volume ← Py.mul_float volume 1.2;
    mret (<["min_avg_volume" := Py.VFloat volume]> base_params)
  else if String.eqb market_condition "bear" then
    size ← Py.getitem base_params "min_fund_size";
    size ← Py.mul_float size 0.8;
    let base_params := <["min_fund_size" := Py.VFloat size]> base_params in
    volume ← Py.getitem base_params "min_avg_volume";
    volume ← Py.mul_float volume 0.8;
    mret (<["min_avg_volume" := Py.VFloat (Py.max volume 3000.0)]> base_params)
  else
    mret base_params.

End etf_list.

(** ** position.py

  [position.py] uses the names [CLOSE_COL], [VOLUME_COL],
  [calculate_volatility] and [calculate_max_drawdown] without importing or
  defining them: they exist in [etf_scoring.py] only.  Evaluating such a
  name raises [NameError], and the handler of the enclosing [try] answers. *)

Module position.
Local Open Scope string_scope.
Local Open Scope float_scope.

(** A row of the ranked candidate table that [get_top_rated_etfs] builds. *)
Record candidate : Type := mk_candidate {
  etf_code : string;
  etf_name : string;
  score : float;
  size : float;
  listing_date : string;
  avg_volume : float
}.

(** The correlation matrix: a square table indexed by code on both axes.
    [loc] is [correlation_matrix.loc[row, col]], a [KeyError] when a label
    is missing. *)
Abbreviation matrix := (gmap string (gmap string float)).

Definition loc (m : matrix) (row col : string) : Py.result float :=
  r ← Py.getitem m row; Py.getitem r col.

(** [etfs.sort_values("score", ascending=False)]: descending by score, NaN
    scores last.  Rows of equal score keep their order here; pandas' default
    sort leaves their order unspecified. *)
Definition ranks_before (y x : candidate) : bool :=
  (score x <? score y) || (is_nan (score x) && negb (is_nan (score y))).

Fixpoint insert_by_score (x : candidate) (l : list candidate)
  : list candidate :=
  match l with
  | [] => [x]
  | y :: l' =>
      if ranks_before y x then y :: insert_by_score x l' else x :: y :: l'
  end.

Definition sort_by_score (etfs : list candidate) : list candidate :=
  fold_right insert_by_score [] etfs.

(** The inner loop of [select_low_correlation_etfs]: [is_low_correlation]
    after comparing the candidate against [selected], in selection order,
    stopping at the first correlation above the threshold. *)
Fixpoint is_low_correlation
    (correlation_matrix : matrix) (min_correlation : float)
    (etf : candidate) (selected : list candidate) : Py.result bool :=
  match selected with
  | [] => mret true
  | sel :: selected' =>
      corr ← loc correlation_matrix (etf_code etf) (etf_code sel);
      if min_correlation <? corr then mret false
      else is_low_correlation correlation_matrix min_correlation etf selected'
  end.

(** The outer loop, over the rows still to visit, with the rows selected so
    far.  The first row is appended and the loop continues at once; the size
    test is made only after a later row is appended. *)
Fixpoint select_loop
    (correlation_matrix : matrix) (max_holdings : Z) (min_correlation : float)
    (rows selected : list candidate) : Py.result (list candidate) :=
  match rows with
  | [] => mret selected
  | etf :: rows' =>
      match selected with
      | [] =>
          select_loop correlation_matrix max_holdings min_correlation
            rows' [etf]
      | _ :: _ =>
          low ← is_low_correlation correlation_matrix min_correlation
                  etf selected;
          if (low : bool) then
            let selected := (selected ++ [etf])%list in
            if (Z.of_nat (length selected) >=? max_holdings)%Z
            then mret selected
            else select_loop correlation_matrix max_holdings min_correlation
                   rows' selected
          else
            select_loop correlation_matrix max_holdings min_correlation
              rows' selected
      end
  end.

(** [select_low_correlation_etfs(etfs, correlation_matrix, max_holdings,
    min_correlation)]; on any exception the top-ranked row alone. *)
Definition select_low_correlation_etfs
    (etfs : list candidate) (correlation_matrix : matrix)
    (max_holdings : Z) (min_correlation : float) : list candidate :=
  let etfs := sort_by_score etfs in
  match select_loop correlation_matrix max_holdings min_correlation etfs []
  with
  | Py.Ok selected => selected
  | Py.Raise _ => firstn 1 etfs
  end.

(** [calculate_correlation_matrix(etfs)]: the placeholder of the source,
    1 on the diagonal and 0.5 elsewhere (for distinct codes). *)
Definition calculate_correlation_matrix (etfs : list candidate) : matrix :=
  let etf_codes := map etf_code etfs in
  list_to_map
    (map (fun r =>
            (r, list_to_map
                  (map (fun c => (c, if String.eqb r c then 1 else 0.5))
                       etf_codes) : gmap string float))
         etf_codes).

(** The names that [position.py] never binds.  A call of
    [calculate_volatility] or [calculate_max_drawdown] fails on the name,
    before its argument matters; so does every read of [CLOSE_COL]. *)
Definition calculate_volatility (df : Pd.DataFrame) : Py.result float :=
  Py.Raise (Py.NameError "calculate_volatility").

Definition calculate_max_drawdown (df : Pd.DataFrame) : Py.result float :=
  Py.Raise (Py.NameError "calculate_max_drawdown").

Definition CLOSE_COL : Py.result string :=
  Py.Raise (Py.NameError "CLOSE_COL").

(** [[1.0/n] * n], the equal weights of the handler of
    [calculate_risk_parity_weights]. *)
Definition equal_weights (n : nat) : Py.result (list float) :=
  x ← Py.float_of_int (Z.of_nat n);
  w ← Py.truediv false 1 x;
  mret (repeat w n).

Section WithData.

(** [load_etf_daily_data(etf_code)]: the daily bars on file, [Pd.no_data]
    when there are none; the loader catches its own exceptions. *)
Variable load_etf_daily_data : string -> Pd.DataFrame.

Context {libm : Np.Libm}.

(** The loop of [calculate_risk_parity_weights] over the selected rows: a
    volatility per row, up to the first call that raises. *)
Fixpoint row_volatilities (etfs : list candidate) : Py.result (list float) :=
  match etfs with
  | [] => mret []
  | etf :: etfs' =>
      let df := load_etf_daily_data (etf_code etf) in
      volatility ←
        (if negb (Pd.empty df) then calculate_volatility df else mret 0.1);
      volatilities ← row_volatilities etfs';
      mret (volatility :: volatilities)
  end.

(** [calculate_risk_parity_weights(etfs)]: the inverse volatilities,
    normalised with NumPy; on any exception the equal weights. *)
Definition calculate_risk_parity_weights (etfs : list candidate)
  : Py.result (list float) :=
  Py.try_except
    (volatilities ← row_volatilities etfs;
     let weights := map (fun volatility => 1 / volatility) volatilities in
     let total := Np.sum weights in
     mret (map (fun w => w / total) weights))
    (fun _ => equal_weights (length etfs)).

(** The per-holding values of a metric, over the holdings that have data. *)
Definition over_holdings {A} (metric : Pd.DataFrame -> A)
    (etf_codes : list string) : list A :=
  omap (fun code =>
          let df := load_etf_daily_data code in
          if negb (Pd.empty df) then Some (metric df) else None)
       etf_codes.

(** The same loop for a metric whose call can raise: the values up to the
    first call that raises. *)
Fixpoint holdings_loop {A} (metric : Pd.DataFrame -> Py.result A)
    (etf_codes : list string) : Py.result (list A) :=
  match etf_codes with
  | [] => mret []
  | code :: etf_codes' =>
      let df := load_etf_daily_data code in
      if negb (Pd.empty df) then
        x ← metric df;
        rest ← holdings_loop metric etf_codes';
        mret (x :: rest)
      else holdings_loop metric etf_codes'
  end.

Definition average (xs : list float) : float :=
  Py.sum xs / Pd.of_nat (length xs).

(** Each of the metric functions below has, in the source, a handler that
    returns a fixed default (0.15, 0.05, 0.15, 0.5, 0.08).  The bodies of
    [calculate_portfolio_volatility] and [calculate_max_drawdown_warning]
    call a name that is not bound and reach their handlers as soon as a
    holding has data; no step of the other three bodies raises, so their
    handlers are not reached. *)

(** The body of the [try] block of [calculate_portfolio_volatility]. *)
Definition calculate_portfolio_volatility_body (etf_codes : list string)
  : Py.result float :=
  match etf_codes with
  | [] => mret 0
  | _ :: _ =>
      volatilities ← holdings_loop calculate_volatility etf_codes;
      match volatilities with
      | [] => mret 0.1
      | _ :: _ => mret (average volatilities)
      end
  end.

(** [calculate_portfolio_volatility(etf_codes)] *)
Definition calculate_portfolio_volatility (etf_codes : list string) : float :=
  Py.recover (calculate_portfolio_volatility_body etf_codes) 0.15.

(** [calculate_var(etf_codes, days, confidence)] *)
Definition calculate_var
    (etf_codes : list string) (days : Z) (confidence : float) : float :=
  match etf_codes with
  | [] => 0
  | _ :: _ =>
      let portfolio_volatility := calculate_portfolio_volatility etf_codes in
      let z_score := 1.645 in
      let var_1d := portfolio_volatility * z_score in
      var_1d * sqrt (Py.nearest_float days)
  end.

(** The body of the [try] block of [calculate_max_drawdown_warning]. *)
Definition calculate_max_drawdown_warning_body (etf_codes : list string)
  : Py.result float :=
  match etf_codes with
  | [] => mret 0
  | _ :: _ =>
      max_drawdowns ← holdings_loop calculate_max_drawdown etf_codes;
      match max_drawdowns with
      | [] => mret 0.1
      | _ :: _ => mret (average max_drawdowns)
      end
  end.

(** [calculate_max_drawdown_warning(etf_codes)] *)
Definition calculate_max_drawdown_warning (etf_codes : list string) : float :=
  Py.recover (calculate_max_drawdown_warning_body etf_codes) 0.15.

(** [monitor_liquidity_risk(etf_codes)] *)
Definition monitor_liquidity_risk (etf_codes : list string) : float :=
  match etf_codes with
  | [] => 0
  | _ :: _ =>
      match over_holdings etf_scoring.calculate_liquidity_score etf_codes with
      | [] => 0.5
      | liquidity_scores => 1 - average liquidity_scores / 100
      end
  end.

(** [monitor_tracking_risk(etf_codes)] *)
Definition monitor_tracking_risk (etf_codes : list string) : float :=
  match etf_codes with
  | [] => 0
  | _ :: _ =>
      match over_holdings
              (fun df => fst (etf_scoring.calculate_tracking_error df))
              etf_codes with
      | [] => 0.05
      | tracking_errors => average tracking_errors
      end
  end.

End WithData.

(** [calculate_correlation_matrix_for_codes(etf_codes)]: the placeholder
    of the source by position, 1 on the diagonal and 0.5 elsewhere. *)
Definition calculate_correlation_matrix_for_codes (etf_codes : list string)
  : list (list float) :=
  let n := length etf_codes in
  map (fun i => map (fun j => if Nat.eqb i j then 1 else 0.5) (seq 0 n))
      (seq 0 n).

(** [monitor_correlation_risk(etf_codes)]: the mean of the entries above
    the diagonal (its handler, default 0.6, is not reached either). *)
Definition monitor_correlation_risk (etf_codes : list string) : float :=
  let n := length etf_codes in
  if Nat.ltb n 2 then 0
  else
    let correlation_matrix := calculate_correlation_matrix_for_codes etf_codes in
    let upper :=
      flat_map (fun i =>
                  map (fun j => nth j (nth i correlation_matrix []) nan)
                      (seq (S i) (n - S i)))
               (seq 0 n) in
    match upper with
    | [] => 0
    | _ :: _ => fold_left PrimFloat.add upper 0 / Pd.of_nat (length upper)
    end.

(** [calculate_overall_risk_level], applied to the six metrics in order;
    [metric_to_score] is its inner function. *)
Definition metric_to_score (metric : float) : float :=
  Py.min (Py.max metric 0) 1.

Definition calculate_overall_risk_level (risk_metrics : list float) : string :=
  let risk_scores := map metric_to_score risk_metrics in
  let weights := [0.2; 0.2; 0.2; 0.15; 0.15; 0.1] in
  let weighted_avg :=
    Py.sum (map (fun sw => fst sw * snd sw) (combine risk_scores weights)) in
  if 0.7 <? weighted_avg then "high"
  else if 0.4 <? weighted_avg then "medium"
  else "low".

(** [generate_risk_alert(risk_level)] *)
Definition generate_risk_alert (risk_level : string) : string :=
  if String.eqb risk_level "high"
  then "⚠️ 高风险预警：建议大幅降低仓位或切换至防御性策略！"
  else if String.eqb risk_level "medium"
  then "⚠️ 中等风险：建议适当降低仓位或调整持仓结构！"
  else "✅ 风险水平正常：可维持当前仓位策略。".

(** A cell of the position-record table and a row of it by column name. *)
Inductive cell : Type :=
| CNaN
| CStr (s : string)
| CInt (z : Z).

Abbreviation row := (gmap string cell).

Definition isna (c : cell) : bool :=
  match c with CNaN => true | _ => false end.

Definition truthy (c : cell) : bool :=
  match c with
  | CNaN => true
  | CStr s => negb (String.eqb s "")
  | CInt z => negb (Z.eqb z 0)
  end.

Definition str_cell (c : cell) : string :=
  match c with
  | CNaN => "nan"
  | CStr s => s
  | CInt z => Py.str_int z
  end.

(** The first loop of [monitor_portfolio_risk]: the codes held, over all
    rows.  A row without the code column is a [KeyError]. *)
Fixpoint held_codes (positions : list row) : Py.result (list string) :=
  match positions with
  | [] => mret []
  | position :: positions' =>
      c ← Py.getitem position "ETF代码";
      let codes :=
        if negb (isna c) && truthy c then
          List.filter (fun code => negb (String.eqb code ""))
            (map Py.strip (Py.split "," (str_cell c)))
        else [] in
      rest ← held_codes positions';
      mret (codes ++ rest)%list
  end.

(** The six metric functions that [monitor_portfolio_risk] calls.  In the
    source each of them catches its own exceptions; here each may also
    raise, so that the handler of [monitor_portfolio_risk] is exercised by
    every failure it could meet. *)
Record metric_functions : Type := {
  portfolio_volatility_of : list string -> Py.result float;
  var_of : list string -> Py.result float;
  max_drawdown_warning_of : list string -> Py.result float;
  liquidity_risk_of : list string -> Py.result float;
  tracking_risk_of : list string -> Py.result float;
  correlation_risk_of : list string -> Py.result float
}.

(** The body of the [try] block of [monitor_portfolio_risk]. *)
Definition monitor_portfolio_risk_body
    (metrics : metric_functions) (positions : list row)
  : Py.result Py.dict :=
  etf_codes ← held_codes positions;
  match etf_codes with
  | [] =>
      mret (list_to_map
              [ ("portfolio_volatility", Py.VFloat 0);
                ("var_1d", Py.VFloat 0);
                ("max_drawdown_warning", Py.VFloat 0);
                ("liquidity_risk", Py.VFloat 0);
                ("tracking_risk", Py.VFloat 0);
                ("correlation_risk", Py.VFloat 0);
                ("overall_risk_level", Py.VStr "low");
                ("risk_alert", Py.VStr "无持仓，风险极低") ])
  | _ :: _ =>
      portfolio_volatility ← portfolio_volatility_of metrics etf_codes;
      var_1d ← var_of metrics etf_codes;
      max_drawdown_warning ← max_drawdown_warning_of metrics etf_codes;
      liquidity_risk ← liquidity_risk_of metrics etf_codes;
      tracking_risk ← tracking_risk_of metrics etf_codes;
      correlation_risk ← correlation_risk_of metrics etf_codes;
      let overall_risk_level :=
        calculate_overall_risk_level
          [ portfolio_volatility; var_1d; max_drawdown_warning;
            liquidity_risk; tracking_risk; correlation_risk ] in
      mret (list_to_map
              [ ("portfolio_volatility", Py.VFloat portfolio_volatility);
                ("var_1d", Py.VFloat var_1d);
                ("max_drawdown_warning", Py.VFloat max_drawdown_warning);
                ("liquidity_risk", Py.VFloat liquidity_risk);
                ("tracking_risk", Py.VFloat tracking_risk);
                ("correlation_risk", Py.VFloat correlation_risk);
                ("overall_risk_level", Py.VStr overall_risk_level);
                ("risk_alert",
                 Py.VStr (generate_risk_alert overall_risk_level)) ])
  end.

(** The dictionary that the [except] block returns. *)
Definition monitoring_failure (e : Py.exn) : Py.dict :=
  list_to_map
    [ ("overall_risk_level", Py.VStr "high");
      ("error", Py.VStr (Py.str_exn e));
      ("risk_alert", Py.VStr "风险监控系统故障，请立即检查！") ].

(** [monitor_portfolio_risk(positions)], over any six metric functions. *)
Definition monitor_portfolio_risk_with
    (metrics : metric_functions) (positions : list row)
  : Py.result Py.dict :=
  Py.try_except (monitor_portfolio_risk_body metrics positions)
    (fun e => mret (monitoring_failure e)).

(** [monitor_portfolio_risk(positions)] with the metric functions of the
    source. *)
Definition source_metrics
    (load_etf_daily_data : string -> Pd.DataFrame) {libm : Np.Libm}
  : metric_functions := {|
  portfolio_volatility_of codes :=
    mret (calculate_portfolio_volatility load_etf_daily_data codes);
  var_of codes := mret (calculate_var load_etf_daily_data codes 1%Z 0.95);
  max_drawdown_warning_of codes :=
    mret (calculate_max_drawdown_warning load_etf_daily_data codes);
  liquidity_risk_of codes :=
    mret (monitor_liquidity_risk load_etf_daily_data codes);
  tracking_risk_of codes :=
    mret (monitor_tracking_risk load_etf_daily_data codes);
  correlation_risk_of codes := mret (monitor_correlation_risk codes)
|}.

Definition monitor_portfolio_risk
    (load_etf_daily_data : string -> Pd.DataFrame) {libm : Np.Libm}
    (positions : list row) : Py.result Py.dict :=
  monitor_portfolio_risk_with (source_metrics load_etf_daily_data) positions.

(** [calculate_trend_strength(df, period)]; [period] defaults to 30.  The
    column is named by [CLOSE_COL], which is read three times. *)
Definition calculate_trend_strength (df : Pd.DataFrame) (period : Z) : float :=
  Py.recover
    (if (Z.of_nat (Pd.len df) <? period)%Z then mret 0.5
     else
       start_price ←
         (c ← CLOSE_COL; close ← Pd.col df c; Pd.iloc close (- period));
       end_price ← (c ← CLOSE_COL; close ← Pd.col df c; Pd.iloc close (-1));
       c ← CLOSE_COL;
       close ← Pd.col df c;
       let total_change := end_price - start_price in
       let absolute_volatility := Pd.sum (Pd.abs (Pd.diff close)) in
       let trend_strength :=
         if negb (absolute_volatility =? 0)
         then abs total_change / absolute_volatility
         else 0 in
       mret (Py.min (Py.max trend_strength 0) 1))
    0.5.

(** [adjust_position_size(risk_level, market_condition, volatility)] *)
Definition adjust_position_size
    (risk_level market_condition : string) (volatility : float) : float :=
  let base_position := 0.6 in
  let base_position :=
    if String.eqb risk_level "high" then base_position - 0.3
    else if String.eqb risk_level "medium" then base_position - 0.1
    else base_position in
  let base_position :=
    if String.eqb market_condition "bear" then base_position - 0.2
    else if String.eqb market_condition "bull" then base_position + 0.1
    else base_position in
  let volatility_factor :=
    1.0 - Py.min (Py.max ((volatility - 0.1) * 2) 0) 0.3 in
  let adjusted_position := base_position * volatility_factor in
  let min_position := 0.2 in
  let max_position := 0.8 in
  Py.max (Py.min adjusted_position max_position) min_position.

(** The reads of the risk snapshot in [generate_position_suggestion]: the
    arguments of the call of [adjust_position_size], evaluated in order.  A
    level that is not a string compares unequal to both names, like the
    empty string. *)
Definition target_position_size
    (risk_level : Py.dict) (market_condition : string) : Py.result float :=
  level ← Py.getitem risk_level "overall_risk_level";
  volatility ← Py.getitem risk_level "portfolio_volatility";
  volatility ← Py.to_float volatility;
  let level := match level with Py.VStr s => s | _ => "" end in
  mret (adjust_position_size level market_condition volatility).

(** The reads of the risk snapshot in the risk summary of
    [generate_detailed_messages]: the six metrics, formatted in order. *)
Definition risk_summary_metrics (risk_level : Py.dict)
  : Py.result (list float) :=
  portfolio_volatility ← Py.getitem risk_level "portfolio_volatility" ≫= Py.to_float;
  var_1d ← Py.getitem risk_level "var_1d" ≫= Py.to_float;
  max_drawdown_warning ← Py.getitem risk_level "max_drawdown_warning" ≫= Py.to_float;
  liquidity_risk ← Py.getitem risk_level "liquidity_risk" ≫= Py.to_float;
  tracking_risk ← Py.getitem risk_level "tracking_risk" ≫= Py.to_float;
  correlation_risk ← Py.getitem risk_level "correlation_risk" ≫= Py.to_float;
  mret [ portfolio_volatility; var_1d; max_drawdown_warning;
         liquidity_risk; tracking_risk; correlation_risk ].

(** [v > 1] for a configured value [v]: a number is compared with 1,
    anything else is a [TypeError]. *)
Definition gt_one (v : Py.value) : Py.result bool :=
  match v with
  | Py.VInt z => mret (1 <? z)%Z
  | Py.VFloat x => mret (1 <? x)
  | Py.VStr _ | Py.VList _ => Py.Raise Py.TypeError
  end.

(** The six factor functions that [generate_trading_signals] calls, in the
    order of the calls.  In the source each of them catches its own
    exceptions and returns its neutral answer; here each may also raise.
    The four that assign scratch columns to the frame return it. *)
Record signal_factors : Type := {
  ma_signal_of :
    Pd.DataFrame -> Z -> Z -> Py.result ((bool * bool) * Pd.DataFrame);
  macd_signal_of : Pd.DataFrame -> Py.result ((bool * bool) * Pd.DataFrame);
  rsi_signal_of : Pd.DataFrame -> Py.result string;
  volume_signal_of : Pd.DataFrame -> Py.result (string * Pd.DataFrame);
  bollinger_bands_signal_of :
    Pd.DataFrame -> Py.result (string * Pd.DataFrame);
  trend_strength_of : Pd.DataFrame -> Py.result float
}.

(** The six [if]/[elif] steps that add up [buy_strength] and
    [sell_strength]. *)
Definition signal_strengths
    (ma_bullish ma_bearish macd_bullish macd_bearish : bool)
    (rsi_signal volume_signal bb_signal : string) (trend_strength : float)
  : Z * Z :=
  let buy_strength := 0%Z in
  let sell_strength := 0%Z in
  let '(buy_strength, sell_strength) :=
    if ma_bullish then ((buy_strength + 2)%Z, sell_strength)
    else if ma_bearish then (buy_strength, (sell_strength + 2)%Z)
    else (buy_strength, sell_strength) in
  let '(buy_strength, sell_strength) :=
    if macd_bullish then ((buy_strength + 2)%Z, sell_strength)
    else if macd_bearish then (buy_strength, (sell_strength + 2)%Z)
    else (buy_strength, sell_strength) in
  let '(buy_strength, sell_strength) :=
    if String.eqb rsi_signal "oversold"
    then ((buy_strength + 1)%Z, sell_strength)
    else if String.eqb rsi_signal "overbought"
    then (buy_strength, (sell_strength + 1)%Z)
    else (buy_strength, sell_strength) in
  let '(buy_strength, sell_strength) :=
    if String.eqb volume_signal "bullish"
    then ((buy_strength + 1)%Z, sell_strength)
    else if String.eqb volume_signal "bearish"
    then (buy_strength, (sell_strength + 1)%Z)
    else (buy_strength, sell_strength) in
  let '(buy_strength, sell_strength) :=
    if String.eqb bb_signal "lower_band"
    then ((buy_strength + 1)%Z, sell_strength)
    else if String.eqb bb_signal "upper_band"
    then (buy_strength, (sell_strength + 1)%Z)
    else (buy_strength, sell_strength) in
  if 0.7 <? trend_strength then ((buy_strength + 1)%Z, sell_strength)
  else if trend_strength <? 0.3 then (buy_strength, (sell_strength + 1)%Z)
  else (buy_strength, sell_strength).

(** The final decision: [signal_type] and [signal_strength]. *)
Definition final_signal (buy_strength sell_strength confirm_threshold : Z)
  : string * Z :=
  if (buy_strength >=? confirm_threshold)%Z then ("buy", buy_strength)
  else if (sell_strength >=? confirm_threshold)%Z
  then ("sell", sell_strength)
  else ("none", 0%Z).

Definition flag_name (bullish bearish : bool) : string :=
  if bullish then "bullish" else if bearish then "bearish" else "none".

(** The body of the [try] block of [generate_trading_signals]. *)
Definition generate_trading_signals_body
    (factors : signal_factors) (cfg : Config.t)
    (df : Pd.DataFrame) (position_type : string) : Py.result Py.dict :=
  '(ma, df) ← ma_signal_of factors df 5%Z 20%Z;
  '(macd, df) ← macd_signal_of factors df;
  rsi_signal ← rsi_signal_of factors df;
  '(volume_signal, df) ← volume_signal_of factors df;
  '(bb_signal, df) ← bollinger_bands_signal_of factors df;
  trend_strength ← trend_strength_of factors df;
  let '(ma_bullish, ma_bearish) := ma in
  let '(macd_bullish, macd_bearish) := macd in
  let '(buy_strength, sell_strength) :=
    signal_strengths ma_bullish ma_bearish macd_bullish macd_bearish
      rsi_signal volume_signal bb_signal trend_strength in
  params ← Py.getitem (Config.STRATEGY_PARAMETERS cfg) position_type;
  confirm_days ← Py.getitem params "confirm_days";
  several ← gt_one confirm_days;
  let confirm_threshold := if (several : bool) then 4%Z else 3%Z in
  let '(signal_type, signal_strength) :=
    final_signal buy_strength sell_strength confirm_threshold in
  mret (list_to_map
          [ ("signal_type", Py.VStr signal_type);
            ("signal_strength", Py.VInt signal_strength);
            ("ma_signal", Py.VStr (flag_name ma_bullish ma_bearish));
            ("macd_signal", Py.VStr (flag_name macd_bullish macd_bearish));
            ("rsi_signal", Py.VStr rsi_signal);
            ("volume_signal", Py.VStr volume_signal);
            ("bb_signal", Py.VStr bb_signal);
            ("trend_strength", Py.VFloat trend_strength) ]).

(** The dictionary that the [except] block returns. *)
Definition no_signal : Py.dict :=
  list_to_map
    [ ("signal_type", Py.VStr "none"); ("signal_strength", Py.VInt 0) ].

(** [generate_trading_signals(etf_code, df, position_type)], over any six
    factor functions; [etf_code] only names the fund in the log. *)
Definition generate_trading_signals
    (factors : signal_factors) (cfg : Config.t)
    (etf_code : string) (df : Pd.DataFrame) (position_type : string)
  : Py.dict :=
  Py.recover (generate_trading_signals_body factors cfg df position_type)
    no_signal.

(** [Config.STRATEGY_PARAMETERS[position_type]["stop_loss_ratio"]] *)
Definition configured_stop_loss_ratio
    (cfg : Config.t) (position_type : string) : Py.result Py.value :=
  params ← Py.getitem (Config.STRATEGY_PARAMETERS cfg) position_type;
  Py.getitem params "stop_loss_ratio".

Section StopLoss.

(** [calculate_atr(df, period)] of [date_utils.py]: it catches its own
    exceptions; it assigns scratch columns to the frame, which it returns
    here next to its value. *)
Variable calculate_atr : Pd.DataFrame -> Z -> float * Pd.DataFrame.

(** The call [calculate_volatility(df)], which may raise or return. *)
Variable calculate_volatility :
  Pd.DataFrame -> Py.result (float * Pd.DataFrame).

(** What the rest of the [try] block computes when the configured ratio is
    a list, which NumPy multiplies into an array: left open. *)
Variable array_stop_loss :
  list Py.value -> float -> float -> Py.result Py.value.

(** The body of the [try] block of [calculate_dynamic_stop_loss]. *)
Definition calculate_dynamic_stop_loss_body
    (cfg : Config.t) (df : Pd.DataFrame) (position_type : string)
  : Py.result Py.value :=
  let '(atr, df) := calculate_atr df 20%Z in
  current_price ←
    (if Nat.eqb (Pd.len df) 0 then Py.Raise Py.IndexError
     else close ← Pd.col df "收盘"; Pd.iloc close (-1)%Z);
  params ← Py.getitem (Config.STRATEGY_PARAMETERS cfg) position_type;
  ratio ← Py.getitem params "stop_loss_ratio";
  match ratio with
  | Py.VList l =>
      '(volatility, _) ← calculate_volatility df;
      array_stop_loss l current_price volatility
  | _ =>
      stop_loss_distance ← Py.mul_float ratio current_price;
      '(volatility, _) ← calculate_volatility df;
      let stop_loss_distance :=
        if 0.2 <? volatility then stop_loss_distance * 1.2
        else if volatility <? 0.1 then stop_loss_distance * 0.8
        else stop_loss_distance in
      let stop_loss_ratio := stop_loss_distance / current_price in
      let min_ratio := 0.01 in
      let max_ratio := 0.15 in
      mret (Py.VFloat (Py.max (Py.min stop_loss_ratio max_ratio) min_ratio))
  end.

(** [calculate_dynamic_stop_loss(etf_code, df, position_type)]: the handler
    reads the configured ratio, and what that read raises is raised by the
    function. *)
Definition calculate_dynamic_stop_loss
    (cfg : Config.t) (etf_code : string) (df : Pd.DataFrame)
    (position_type : string) : Py.result Py.value :=
  Py.try_except (calculate_dynamic_stop_loss_body cfg df position_type)
    (fun _ => configured_stop_loss_ratio cfg position_type).

End StopLoss.

End position.

(** ** wechat_push.py *)

Module wechat_push.

(** A Python [str] as the sequence of its code points, so that [len]
    counts what Python counts. *)
Abbreviation str := (list N).

Definition _MAX_MESSAGE_LENGTH : nat := 2048.
Definition _MESSAGE_CHUNK_SIZE : nat := 1800.

Definition newline : N := 10.

(** [s.split('\n')] *)
Fixpoint split_lines (s : str) : list str :=
  match s with
  | [] => [[]]
  | c :: s' =>
      if N.eqb c newline then [] :: split_lines s'
      else match split_lines s' with
           | line :: lines => (c :: line) :: lines
           | [] => [[c]]
           end
  end.

(** ['\n'.join(lines)] *)
Fixpoint join_lines (lines : list str) : str :=
  match lines with
  | [] => []
  | line :: lines' =>
      match lines' with
      | [] => line
      | _ :: _ => line ++ newline :: join_lines lines'
      end
  end.

(** [sum(len(l) + 1 for l in current_chunk)] *)
Definition chunk_size (current_chunk : list str) : nat :=
  list_sum (map (fun l => length l + 1) current_chunk).

(** The loop of [_check_message_length] over the lines still to place,
    with [chunks] and [current_chunk] as they stand, and the flush after
    it. *)
Fixpoint chunk_lines (lines chunks current_chunk : list str) : list str :=
  match lines with
  | [] =>
      match current_chunk with
      | [] => chunks
      | _ :: _ => chunks ++ [join_lines current_chunk]
      end
  | line :: lines' =>
      let '(chunks, current_chunk) :=
        if _MESSAGE_CHUNK_SIZE <? chunk_size current_chunk + length line + 1
        then
          match current_chunk with
          | [] => (chunks, current_chunk)
          | _ :: _ => (chunks ++ [join_lines current_chunk], [])
          end
        else (chunks, current_chunk) in
      chunk_lines lines' chunks (current_chunk ++ [line])
  end.

(** [_check_message_length(message)] *)
Definition _check_message_length (message : str) : list str :=
  if length message <=? _MAX_MESSAGE_LENGTH then [message]
  else chunk_lines (split_lines message) [] [].

End wechat_push.

(** ** The specification's own formulas

    Definitions that follow the specification's words, to be compared with
    the functions embedded from the source. *)

Module Spec.
Local Open Scope float_scope.

Inductive RiskLevel : Type := low | medium | high.
Inductive Regime : Type := bull | bear | sideways.

Definition risk_level_name (r : RiskLevel) : string :=
  match r with low => "low" | medium => "medium" | high => "high" end.

Definition regime_name (m : Regime) : string :=
  match m with bull => "bull" | bear => "bear" | sideways => "sideways" end.

(** [clamp x lo hi]: [x] brought into the interval [[lo, hi]]. *)
Definition clamp (x lo hi : float) : float :=
  if x <? lo then lo else if hi <? x then hi else x.

(** Section 4.7: 60% base, less 30pp at high and 10pp at medium risk, less
    20pp in a bear and plus 10pp in a bull regime. *)
Definition base_exposure (r : RiskLevel) (m : Regime) : float :=
  let b := match r with high => 0.6 - 0.3 | medium => 0.6 - 0.1 | low => 0.6 end in
  match m with bear => b - 0.2 | bull => b + 0.1 | sideways => b end.

Definition damping_factor (volatility : float) : float :=
  1 - clamp ((volatility - 0.10) * 2) 0 0.30.

Definition target_exposure (r : RiskLevel) (m : Regime) (volatility : float)
  : float :=
  clamp (base_exposure r m * damping_factor volatility) 0.20 0.80.

(** Section 4.3: the additive adjustment of each weight by regime, and the
    renormalisation by the new total. *)
Definition weight_adjustment (m : Regime) (k : string) : float :=
  match m with
  | bear =>
      if String.eqb k "risk" then 0.10
      else if String.eqb k "return" then - 0.05
      else if String.eqb k "premium" then 0.05
      else 0
  | bull =>
      if String.eqb k "return" then 0.05
      else if String.eqb k "risk" then - 0.05
      else if String.eqb k "tracking" then - 0.05
      else 0
  | sideways => 0
  end.

Definition adjusted_weights (m : Regime) (base : list (string * float))
  : list (string * float) :=
  map (fun kv => (fst kv, snd kv + weight_adjustment m (fst kv))) base.

Definition renormalised (w : list (string * float)) : list (string * float) :=
  let total := Py.sum (map snd w) in
  map (fun kv => (fst kv, snd kv / total)) w.

(** Section 4.5: [etf] is admissible against [selected] when its
    correlation with every member is read from the matrix and is not above
    the threshold; a selection is pairwise low-correlated when every member
    is admissible against the members selected before it. *)
Definition admitted_against
    (correlation_matrix : position.matrix) (min_correlation : float)
    (etf : position.candidate) (selected : list position.candidate) : Prop :=
  Forall (fun sel =>
            exists corr,
              position.loc correlation_matrix
                (position.etf_code etf) (position.etf_code sel) = Py.Ok corr
              /\ (min_correlation <? corr) = false)
         selected.

Definition pairwise_low
    (correlation_matrix : position.matrix) (min_correlation : float)
    (selected : list position.candidate) : Prop :=
  forall (i j : nat) (a b : position.candidate),
    (i < j)%nat -> selected !! i = Some a -> selected !! j = Some b ->
    exists corr,
      position.loc correlation_matrix
        (position.etf_code b) (position.etf_code a) = Py.Ok corr
      /\ (min_correlation <? corr) = false.

(** Section 4.2: a sub-score is in range when it is neither below 0 nor
    above 100 (NaN is neither). *)
Definition in_score_range (x : float) : Prop :=
  (x <? 0) = false /\ (100 <? x) = false.

(** Section 9: the scratch columns that the scoring functions assign to the
    frame they are given, and two frames that agree on the number of rows
    and on every column outside a list of names. *)
Definition derived_columns : list string :=
  ["daily_return"; "cum_return"; "drawdown"; "tracking_error"]%string.

Definition agree_off (names : list string) (df df' : Pd.DataFrame) : Prop :=
  Pd.index df = Pd.index df'
  /\ forall c : string, c ∉ names -> Pd.data df !! c = Pd.data df' !! c.

(** A function that returns a value and the frame it was given is confined
    to the scratch columns when the frame it leaves agrees with the one it
    was given outside them, and its value is the same on frames that agree
    outside them. *)
Definition scratch_only {A} (f : Pd.DataFrame -> A * Pd.DataFrame) : Prop :=
  (forall df, agree_off derived_columns df (snd (f df)))
  /\ (forall df df',
        agree_off derived_columns df df' -> fst (f df) = fst (f df')).

Definition reads_bars_only {A} (f : Pd.DataFrame -> A) : Prop :=
  forall df df', agree_off derived_columns df df' -> f df = f df'.

(** Section 4.6: the trend strength of a close series, the absolute net
    change over the trailing 30 observations divided by the sum of the
    absolute daily changes over the same window, clamped to [[0, 1]]; 0.5
    below 30 observations. *)
Definition trend_strength (close : Pd.Series) : float :=
  if Nat.ltb (length close) 30 then 0.5
  else
    let window := Pd.tail_series 30 close in
    match head window, last window with
    | Some first, Some final =>
        clamp (abs (final - first) / Pd.sum (Pd.abs (Pd.diff window))) 0 1
    | _, _ => 0.5
    end.


(** Section 4.8: a code as the risk monitor collects it: not empty, without
    white space around it, and without a comma. *)
Definition clean_code (code : string) : Prop :=
  code <> EmptyString /\ Py.strip code = code
  /\ ~ In ","%char (list_ascii_of_string code).

(** A chunk of a long message as the chunking loop leaves it: shorter than
    the chunk size, or a single line of the message. *)
Definition chunk_ok (chunk : wechat_push.str) : Prop :=
  length chunk < wechat_push._MESSAGE_CHUNK_SIZE
  \/ ~ In wechat_push.newline chunk.

(** Section 4.4: the fixed liquidity floor of bear-market screening, and a
    threshold re-floored at it. *)
Definition liquidity_floor : float := 3000.

Definition refloor (x : float) : float :=
  if x <? liquidity_floor then liquidity_floor else x.

Definition adjusted_fund_size (m : Regime) (v : Py.value) (size : float)
  : Py.value :=
  match m with
  | bull => Py.VFloat (size * 1.2)
  | bear => Py.VFloat (size * 0.8)
  | sideways => v
  end.

Definition adjusted_avg_volume (m : Regime) (v : Py.value) (volume : float)
  : Py.value :=
  match m with
  | bull => Py.VFloat (volume * 1.2)
  | bear => Py.VFloat (refloor (volume * 0.8))
  | sideways => v
  end.

End Spec.

(** ** Sample inputs *)

Module Samples.
Local Open Scope string_scope.
Local Open Scope float_scope.

(** Two ranked candidates; the placeholder matrix correlates them at 0.5. *)
Definition etf_300 : position.candidate :=
  position.mk_candidate "510300" "沪深300ETF" 90 120 "2012-05-28" 80000.

Definition etf_500 : position.candidate :=
  position.mk_candidate "510500" "中证500ETF" 80 60 "2013-03-15" 40000.

Definition two_candidates : list position.candidate := [etf_300; etf_500].

(** Scenario B of the specification: the two candidates correlated at 0.9. *)
Definition correlated_at_09 : position.matrix :=
  list_to_map
    [ ("510300", list_to_map [("510300", 1); ("510500", 0.9)]);
      ("510500", list_to_map [("510300", 0.9); ("510500", 1)]) ].

Definition closes_only (close : Pd.Series) : Pd.DataFrame :=
  Pd.mk_df (length close) (<[Config.CLOSE_COL := close]> ∅).

(** Daily bars on file: 510300 has not moved for three days, 510500 has. *)
Definition flat_bars : Pd.DataFrame := closes_only [1; 1; 1].
Definition moving_bars : Pd.DataFrame := closes_only [1; 2; 1].

Definition bars_on_file (etf_code : string) : Pd.DataFrame :=
  if String.eqb etf_code "510300" then flat_bars
  else if String.eqb etf_code "510500" then moving_bars
  else Pd.no_data.

(** Thirty daily bars without a date column: closes and index closes. *)
Definition undated_bars : Pd.DataFrame :=
  Pd.mk_df 30
    (<[Config.INDEX_CLOSE_COL := repeat 1 30]>
       (<[Config.CLOSE_COL := repeat 1 30]> ∅)).

(** 30 closes that rise by one a day, from 1 to 30. *)
Definition steady_rise : Pd.Series := map Pd.of_nat (seq 1 30).

(** A position record whose code column is missing, and one holding two
    funds. *)
Definition row_without_codes : position.row :=
  {[ "仓位类型" := position.CStr "稳健仓" ]}.

Definition row_with_codes : position.row :=
  <[ "ETF代码" := position.CStr "510300, 510500" ]> row_without_codes.

(** Metric functions of which the first raises. *)
Definition failing_metrics : position.metric_functions := {|
  position.portfolio_volatility_of _ := Py.Raise Py.ValueError;
  position.var_of _ := mret 0;
  position.max_drawdown_warning_of _ := mret 0;
  position.liquidity_risk_of _ := mret 0;
  position.tracking_risk_of _ := mret 0;
  position.correlation_risk_of _ := mret 0
|}.

(** An implementation of the transcendental functions for the inputs on
    which no score calls them. *)
Definition identity_libm : Np.Libm := {|
  Np.exp := fun x => x;
  Np.log := fun x => x;
  Np.power := fun x _ => x
|}.

(** The position records that [init_position_record] creates: one row per
    bucket, none holding a fund. *)
Definition empty_record (position_type : string) : position.row :=
  <[ "ETF代码" := position.CStr "" ]>
    ({[ "仓位类型" := position.CStr position_type ]}).

Definition default_positions : list position.row :=
  map empty_record ["稳健仓"; "激进仓"; "套利仓"; "成长仓"; "行业仓"].

(** Two bars of a heavily traded fund quoted with a crossed market: a
    turnover of 1e9 a day and a bid/ask spread of -0.01. *)
Definition crossed_quotes : Pd.DataFrame :=
  Pd.mk_df 2
    (<[Config.BID_ASK_SPREAD_COL := [-0.01; -0.01]]>
       (<[Config.AMOUNT_COL := [1000000000; 1000000000]]>
          (<[Config.CLOSE_COL := [1; 1]]> ∅))).

(** Factor functions that all give their neutral answer and leave the
    frame as it is, as the detectors of the source do on a short frame. *)
Definition quiet_factors : position.signal_factors := {|
  position.ma_signal_of df _ _ := mret ((false, false), df);
  position.macd_signal_of df := mret ((false, false), df);
  position.rsi_signal_of _ := mret "neutral";
  position.volume_signal_of df := mret ("neutral", df);
  position.bollinger_bands_signal_of df := mret ("middle_band", df);
  position.trend_strength_of _ := mret 0.5
|}.

(** [calculate_atr] on a frame shorter than the period: 0.0, and the frame
    as it was. *)
Definition atr_of_short_frame (df : Pd.DataFrame) (period : Z)
  : float * Pd.DataFrame := (0, df).

(** The call [calculate_volatility(df)] as [position.py] makes it: the
    name is not bound there. *)
Definition volatility_of (df : Pd.DataFrame)
  : Py.result (float * Pd.DataFrame) :=
  Py.Raise (Py.NameError "calculate_volatility").

Definition no_array (l : list Py.value) (current_price volatility : float)
  : Py.result Py.value := Py.Raise Py.ValueError.

(** A report of thirty lines of 99 characters, 3000 code points with the
    newlines that end them. *)
Definition long_report : wechat_push.str :=
  concat (repeat (repeat 65%N 99 ++ [wechat_push.newline])%list 30).

End Samples.

(** * Properties *)

(** ** Sequencing in the exception monad *)

Section Sequencing.
Context {A B : Type}.

Lemma bind_ok (a : A) (k : A -> Py.result B) : (Py.Ok a ≫= k) = k a.
Proof. reflexivity. Qed.

Lemma bind_raise (e : Py.exn) (k : A -> Py.result B) :
  (Py.Raise e ≫= k) = Py.Raise e.
Proof. reflexivity. Qed.

End Sequencing.

(** ** The order of binary64 floats *)

Section FloatOrder.
Local Open Scope float_scope.

Lemma SFltb_trans (a b c : spec_float) :
  SFltb a b = true -> SFltb b c = true -> SFltb a c = true.
Proof.
  unfold SFltb, SFcompare.
  destruct a as [sa|sa| |sa ma ea], b as [sb|sb| |sb mb eb],
    c as [sc|sc| |sc mc ec];
    try destruct sa; try destruct sb; try destruct sc;
    try discriminate; try reflexivity; intros Hab Hbc.
  all: destruct (Z.compare_spec ea eb) as [Eab|Lab|Gab]; try discriminate;
    destruct (Z.compare_spec eb ec) as [Ebc|Lbc|Gbc]; try discriminate;
    destruct (Z.compare_spec ea ec) as [Eac|Lac|Gac]; try lia; try reflexivity.
  all: rewrite ?Pos.compare_cont_spec in *; simpl in *.
  all: repeat match goal with
       | H : context [CompOpp (?x ?= ?y)%positive] |- _ =>
           rewrite <- (Pos.compare_antisym y x) in H
       | |- context [CompOpp (?x ?= ?y)%positive] =>
           rewrite <- (Pos.compare_antisym y x)
       end.
  all: repeat match goal with
       | H : context [(?x ?= ?y)%positive] |- _ =>
           destruct (Pos.compare_spec x y); try discriminate
       | |- context [(?x ?= ?y)%positive] =>
           destruct (Pos.compare_spec x y); try discriminate
       end; try reflexivity; lia.
Qed.

Lemma ltb_irrefl (x : float) : (x <? x) = false.
Proof.
  rewrite ltb_spec. unfold SFltb, SFcompare.
  destruct (Prim2SF x) as [[]|[]| |[] m e]; try reflexivity.
  all: rewrite Z.compare_refl, Pos.compare_cont_refl; reflexivity.
Qed.

Lemma ltb_trans (x y z : float) :
  (x <? y) = true -> (y <? z) = true -> (x <? z) = true.
Proof. rewrite !ltb_spec. apply SFltb_trans. Qed.

End FloatOrder.

(** ** Clamping with [min] and [max] *)

Section Clamp.
Local Open Scope float_scope.

Lemma min_max_is_clamp (x lo hi : float) :
  (hi <? lo) = false ->
  Py.min (Py.max x lo) hi = Spec.clamp x lo hi.
Proof.
  intros Hord. unfold Py.min, Py.max, Spec.clamp.
  destruct (x <? lo) eqn:Hx; [now rewrite Hord|reflexivity].
Qed.

Lemma max_min_is_clamp (x lo hi : float) :
  (hi <? lo) = false ->
  Py.max (Py.min x hi) lo = Spec.clamp x lo hi.
Proof.
  intros Hord. unfold Py.min, Py.max, Spec.clamp.
  destruct (hi <? x) eqn:Hhi.
  - rewrite Hord. destruct (x <? lo) eqn:Hlo; [|reflexivity].
    rewrite (ltb_trans hi x lo Hhi Hlo) in Hord. discriminate.
  - destruct (x <? lo); reflexivity.
Qed.

Lemma clamp_not_below (x lo hi : float) :
  (hi <? lo) = false -> (Spec.clamp x lo hi <? lo) = false.
Proof.
  intros Hord. unfold Spec.clamp.
  destruct (x <? lo) eqn:Hlo.
  - apply ltb_irrefl.
  - destruct (hi <? x); assumption.
Qed.

Lemma clamp_not_above (x lo hi : float) :
  (hi <? lo) = false -> (hi <? Spec.clamp x lo hi) = false.
Proof.
  intros Hord. unfold Spec.clamp.
  destruct (x <? lo) eqn:Hlo; [assumption|].
  destruct (hi <? x) eqn:Hhi; [|assumption].
  apply ltb_irrefl.
Qed.

End Clamp.

(** ** Position sizing *)

Section PositionSizing.
Local Open Scope float_scope.

(** C7.  For each of the three risk levels and the three regimes and every
    volatility, [adjust_position_size] is the specification's target
    exposure: the regime- and risk-adjusted base, times the damping factor
    [1 - clamp((volatility - 0.10) * 2, 0, 0.30)], clamped to [[0.20, 0.80]];
    the result is never below 0.20 and never above 0.80. *)
Theorem adjust_position_size_target_exposure
    (r : Spec.RiskLevel) (m : Spec.Regime) (volatility : float) :
  position.adjust_position_size
    (Spec.risk_level_name r) (Spec.regime_name m) volatility
  = Spec.target_exposure r m volatility
  /\ (position.adjust_position_size
        (Spec.risk_level_name r) (Spec.regime_name m) volatility <? 0.2) = false
  /\ (0.8 <? position.adjust_position_size
        (Spec.risk_level_name r) (Spec.regime_name m) volatility) = false.
Proof.
  assert (E : position.adjust_position_size
                (Spec.risk_level_name r) (Spec.regime_name m) volatility
              = Spec.target_exposure r m volatility).
  { unfold position.adjust_position_size, Spec.target_exposure,
      Spec.damping_factor.
    rewrite min_max_is_clamp by reflexivity.
    rewrite max_min_is_clamp by reflexivity.
    destruct r, m; reflexivity. }
  rewrite E. unfold Spec.target_exposure.
  split; [reflexivity|split].
  - apply clamp_not_below. reflexivity.
  - apply clamp_not_above. reflexivity.
Qed.

End PositionSizing.

(** ** Regime-adjusted screening thresholds *)

Section Thresholds.
Local Open Scope string_scope.
Local Open Scope float_scope.

Lemma refloor_not_below (x : float) :
  (Spec.refloor x <? Spec.liquidity_floor) = false.
Proof.
  unfold Spec.refloor.
  destruct (x <? Spec.liquidity_floor) eqn:E; [apply ltb_irrefl|exact E].
Qed.

(** C8.  For every base parameter set with numeric [min_fund_size] and
    [min_avg_volume]: a bull regime multiplies both by 1.2, a bear regime
    multiplies both by 0.8 and re-floors [min_avg_volume] at 3000 (so it is
    never below the floor), a sideways regime leaves both as they are; every
    other parameter is unchanged in every regime. *)
Theorem dynamic_thresholds_by_regime
    (cfg : Config.t) (base : Py.dict) (m : Spec.Regime)
    (sv vv : Py.value) (size volume : float) :
  Config.ETF_SELECTION_LAYERS cfg !! "base" = Some base ->
  base !! "min_fund_size" = Some sv -> Py.to_float sv = Py.Ok size ->
  base !! "min_avg_volume" = Some vv -> Py.to_float vv = Py.Ok volume ->
  exists out : Py.dict,
    etf_list.get_dynamic_selection_thresholds cfg (Spec.regime_name m)
    = Py.Ok out
    /\ out !! "min_fund_size" = Some (Spec.adjusted_fund_size m sv size)
    /\ out !! "min_avg_volume" = Some (Spec.adjusted_avg_volume m vv volume)
    /\ (forall k : string,
          k <> "min_fund_size" -> k <> "min_avg_volume" ->
          out !! k = base !! k)
    /\ (m = Spec.bear ->
        exists x, out !! "min_avg_volume" = Some (Py.VFloat x)
                  /\ (x <? 3000) = false).
Proof.
  intros Hbase Hs Hsf Hv Hvf.
  assert (Hmul : forall c, Py.mul_float sv c = Py.Ok (size * c)).
  { intros c. unfold Py.mul_float. now rewrite Hsf. }
  assert (Hmulv : forall c, Py.mul_float vv c = Py.Ok (volume * c)).
  { intros c. unfold Py.mul_float. now rewrite Hvf. }
  unfold etf_list.get_dynamic_selection_thresholds, Py.getitem.
  rewrite Hbase, bind_ok.
  destruct m; cbn [Spec.regime_name String.eqb Ascii.eqb Bool.eqb];
    cbn [Spec.adjusted_fund_size Spec.adjusted_avg_volume].
  - rewrite Hs, bind_ok, Hmul, bind_ok.
    rewrite lookup_insert_ne by discriminate.
    rewrite Hv, bind_ok, Hmulv, bind_ok.
    eexists; split; [reflexivity|]. repeat split.
    + rewrite lookup_insert_ne by discriminate. apply lookup_insert_eq.
    + apply lookup_insert_eq.
    + intros k Hk1 Hk2. now rewrite !lookup_insert_ne by congruence.
    + discriminate.
  - rewrite Hs, bind_ok, Hmul, bind_ok.
    rewrite lookup_insert_ne by discriminate.
    rewrite Hv, bind_ok, Hmulv, bind_ok.
    eexists; split; [reflexivity|]. repeat split.
    + rewrite lookup_insert_ne by discriminate. apply lookup_insert_eq.
    + apply lookup_insert_eq.
    + intros k Hk1 Hk2. now rewrite !lookup_insert_ne by congruence.
    + intros _. eexists; split; [apply lookup_insert_eq|].
      apply (refloor_not_below (volume * 0.8)).
  - eexists; split; [reflexivity|]. repeat split.
    + exact Hs.
    + exact Hv.
    + discriminate.
Qed.

(** The repository's base layer in a bear regime: 10 and 5000 become 8 and
    4000. *)
Lemma dynamic_thresholds_by_regime_witness :
  exists out : Py.dict,
    etf_list.get_dynamic_selection_thresholds Config.default "bear"
    = Py.Ok out
    /\ out !! "min_fund_size" = Some (Py.VFloat 8)
    /\ out !! "min_avg_volume" = Some (Py.VFloat 4000)
    /\ (forall k : string,
          k <> "min_fund_size" -> k <> "min_avg_volume" ->
          out !! k
          = Config.dict_of
              [ ("min_fund_size", Py.VFloat 10.0);
                ("min_avg_volume", Py.VFloat 5000.0);
                ("min_listing_days", Py.VInt 365);
                ("max_tracking_error", Py.VFloat 0.05) ] !! k)
    /\ (Spec.bear = Spec.bear ->
        exists x, out !! "min_avg_volume" = Some (Py.VFloat x)
                  /\ (x <? 3000) = false).
Proof.
  apply (dynamic_thresholds_by_regime Config.default _ Spec.bear
           (Py.VFloat 10) (Py.VFloat 5000) 10 5000); reflexivity.
Defined.

End Thresholds.

(** ** Regime-adjusted score weights *)

Section ScoreWeights.
Local Open Scope string_scope.
Local Open Scope float_scope.

(** C2.  In each of the three regimes [adjust_score_weights] returns the
    six base weights with the regime's additive adjustments, each divided by
    the new total; the six returned values sum to 1 within 1e-15. *)
Theorem adjust_score_weights_sum_to_one (m : Spec.Regime) :
  exists w : list (string * float),
    etf_scoring.adjust_score_weights Config.default (Spec.regime_name m)
    = Py.Ok w
    /\ w = Spec.renormalised
             (Spec.adjusted_weights m (Config.BASE_SCORE_WEIGHTS Config.default))
    /\ map fst w
       = ["liquidity"; "risk"; "return"; "tracking"; "premium"; "stability"]
    /\ (abs (Py.sum (Py.values w) - 1) <=? 1e-15) = true.
Proof.
  destruct m; eexists; (split; [vm_compute; reflexivity|]);
    repeat split; vm_compute; reflexivity.
Qed.

End ScoreWeights.

(** ** Low-correlation selection *)

Section Selection.
Local Open Scope string_scope.
Local Open Scope float_scope.

Variable correlation_matrix : position.matrix.
Variable max_holdings : Z.
Variable min_correlation : float.

Abbreviation admitted_against :=
  (Spec.admitted_against correlation_matrix min_correlation).
Abbreviation pairwise_low :=
  (Spec.pairwise_low correlation_matrix min_correlation).

Lemma is_low_correlation_admitted etf selected :
  position.is_low_correlation correlation_matrix min_correlation etf selected
  = Py.Ok true ->
  admitted_against etf selected.
Proof.
  induction selected as [|sel selected IH]; cbn [position.is_low_correlation].
  - intros _. constructor.
  - destruct (position.loc correlation_matrix (position.etf_code etf)
                (position.etf_code sel)) as [corr|e] eqn:Hloc;
      [rewrite bind_ok|rewrite bind_raise; discriminate].
    destruct (min_correlation <? corr) eqn:Hcmp; [discriminate|].
    intros H. constructor; [exists corr; split; [exact Hloc|exact Hcmp]|].
    now apply IH.
Qed.

Lemma pairwise_low_snoc etf selected :
  pairwise_low selected -> admitted_against etf selected ->
  pairwise_low (selected ++ [etf]).
Proof.
  intros Hsel Hadm i j a b Hij Ha Hb.
  destruct (decide (j < length selected)%nat) as [Hj|Hj].
  - rewrite lookup_app_l in Ha by lia. rewrite lookup_app_l in Hb by lia.
    eauto.
  - pose proof (lookup_lt_Some _ _ _ Hb) as Hlen.
    rewrite length_app in Hlen. cbn in Hlen.
    assert (j = length selected) as -> by lia.
    rewrite lookup_app_l in Ha by lia.
    rewrite lookup_app_r, Nat.sub_diag in Hb by lia.
    injection Hb as <-.
    exact (proj1 (Forall_lookup _ _) Hadm i a Ha).
Qed.

Lemma pairwise_low_short selected :
  (length selected <= 1)%nat -> pairwise_low selected.
Proof.
  intros Hlen i j a b Hij Ha Hb.
  apply lookup_lt_Some in Hb. lia.
Qed.

Lemma select_loop_pairwise_low rows : forall selected out,
  pairwise_low selected ->
  position.select_loop correlation_matrix max_holdings min_correlation
    rows selected = Py.Ok out ->
  pairwise_low out.
Proof.
  induction rows as [|etf rows IH]; intros selected out Hinv;
    cbn [position.select_loop].
  - intros [= <-]. exact Hinv.
  - destruct selected as [|s0 selected].
    + apply IH. apply pairwise_low_short. cbn. lia.
    + destruct (position.is_low_correlation correlation_matrix
                  min_correlation etf (s0 :: selected)) as [[|]|e] eqn:Hlow;
        [rewrite bind_ok|rewrite bind_ok|rewrite bind_raise; discriminate].
      * pose proof (pairwise_low_snoc etf _ Hinv
                      (is_low_correlation_admitted _ _ Hlow)) as Hinv'.
        destruct (_ >=? _)%Z; [intros [= <-]; exact Hinv'|].
        now apply IH.
      * now apply IH.
Qed.

(** X21.  On both the ordinary and the exception path the returned rows
    are pairwise low-correlated in selection order. *)
Lemma select_low_correlation_etfs_pairwise_low etfs :
  pairwise_low
    (position.select_low_correlation_etfs etfs correlation_matrix
       max_holdings min_correlation).
Proof.
  unfold position.select_low_correlation_etfs.
  destruct (position.select_loop _ _ _ _ _) as [selected|e] eqn:Hloop.
  - eapply select_loop_pairwise_low; [|exact Hloop].
    apply pairwise_low_short. cbn. lia.
  - apply pairwise_low_short. rewrite length_take. lia.
Qed.

Lemma select_loop_length rows : forall selected out,
  (Z.of_nat (length selected) < Z.max max_holdings 2)%Z ->
  position.select_loop correlation_matrix max_holdings min_correlation
    rows selected = Py.Ok out ->
  (Z.of_nat (length out) <= Z.max max_holdings 2)%Z.
Proof.
  induction rows as [|etf rows IH]; intros selected out Hlen;
    cbn [position.select_loop].
  - intros [= <-]. lia.
  - destruct selected as [|s0 selected].
    + apply IH. cbn [length]. lia.
    + destruct (position.is_low_correlation correlation_matrix
                  min_correlation etf (s0 :: selected)) as [[|]|e];
        [rewrite bind_ok|rewrite bind_ok|rewrite bind_raise; discriminate].
      * rewrite Z.geb_leb.
        destruct (Z.leb_spec max_holdings
                    (Z.of_nat (length ((s0 :: selected) ++ [etf]))))
          as [Hfull|Hfull].
        -- intros [= <-]. cbn [length app] in *.
           rewrite ?length_app in *. cbn [length] in *. lia.
        -- apply IH. cbn [length app] in *.
           rewrite ?length_app in *. cbn [length] in *. lia.
      * now apply IH.
Qed.

(** X20.  The size of the selection is bounded by [max_holdings] only from
    2 on: in general the bound is [max max_holdings 2]. *)
Lemma select_low_correlation_etfs_length etfs :
  (Z.of_nat (length (position.select_low_correlation_etfs etfs
                       correlation_matrix max_holdings min_correlation))
   <= Z.max max_holdings 2)%Z.
Proof.
  unfold position.select_low_correlation_etfs.
  destruct (position.select_loop _ _ _ _ _) as [selected|e] eqn:Hloop.
  - eapply select_loop_length; [|exact Hloop]. cbn [length]. lia.
  - rewrite length_take. lia.
Qed.

End Selection.

(** Scenario B: of two candidates correlated at 0.9 under a threshold of
    0.7, only the higher-scored one is admitted. *)
Lemma select_low_correlation_etfs_scenario_b :
  position.select_low_correlation_etfs Samples.two_candidates
    Samples.correlated_at_09 4 0.7
  = [Samples.etf_300].
Proof. vm_compute. reflexivity. Qed.

(** C1.  With [max_holdings = 1] and two candidates whose correlation 0.5
    is below the threshold 0.7, [select_low_correlation_etfs] returns both
    candidates: the first row is appended without the size test, and the
    test after the second append comes too late. *)
Theorem select_low_correlation_etfs_exceeds_one :
  position.select_low_correlation_etfs Samples.two_candidates
    (position.calculate_correlation_matrix Samples.two_candidates) 1 0.7
  = [Samples.etf_300; Samples.etf_500].
Proof. vm_compute. reflexivity. Qed.

(** ** Trend strength *)

Section TrendStrength.
Local Open Scope string_scope.
Local Open Scope float_scope.

(** Below [period] rows the function answers 0.5 at once; from [period]
    rows on the first read of [CLOSE_COL] raises and the handler answers
    0.5. *)
Lemma calculate_trend_strength_constant (df : Pd.DataFrame) (period : Z) :
  position.calculate_trend_strength df period = 0.5.
Proof.
  unfold position.calculate_trend_strength.
  destruct (Z.of_nat (Pd.len df) <? period)%Z; reflexivity.
Qed.

(** C6.  On 30 closes that rise by one a day, from 1 to 30, the formula
    gives 1 (a pure trend).  [calculate_trend_strength] names the close
    column by [CLOSE_COL], which [position.py] never binds; the read raises
    and the handler returns 0.5, there and on every other frame. *)
Theorem calculate_trend_strength_ignores_closes :
  position.calculate_trend_strength
    (Samples.closes_only Samples.steady_rise) 30 = 0.5
  /\ Spec.trend_strength Samples.steady_rise = 1
  /\ (forall (df : Pd.DataFrame) (period : Z),
        position.calculate_trend_strength df period = 0.5).
Proof.
  split; [vm_compute; reflexivity|split; [vm_compute; reflexivity|]].
  intros df period. unfold position.calculate_trend_strength.
  destruct (Z.of_nat (Pd.len df) <? period)%Z; reflexivity.
Qed.

End TrendStrength.

(** ** Risk-parity weights *)

Section RiskParity.
Local Open Scope string_scope.
Local Open Scope float_scope.

Variable load_etf_daily_data : string -> Pd.DataFrame.

Abbreviation has_no_bars etf :=
  (Pd.empty (load_etf_daily_data (position.etf_code etf)) = true).

(** The loop returns only when no row has bars on file, with the fallback
    0.1 for every row; otherwise the call of [calculate_volatility] raises. *)
Lemma row_volatilities_cases (etfs : list position.candidate) :
  (Forall (fun etf => has_no_bars etf) etfs
   /\ position.row_volatilities load_etf_daily_data etfs
      = Py.Ok (repeat 0.1 (length etfs)))
  \/ (Exists (fun etf => ~ has_no_bars etf) etfs
      /\ position.row_volatilities load_etf_daily_data etfs
         = Py.Raise (Py.NameError "calculate_volatility")).
Proof.
  induction etfs as [|etf etfs IH]; cbn [position.row_volatilities].
  - left. split; [constructor|reflexivity].
  - destruct (Pd.empty (load_etf_daily_data (position.etf_code etf))) eqn:E;
      cbn [negb].
    + rewrite bind_ok. destruct IH as [[Hall ->]|[Hex ->]].
      * left. split; [now constructor|reflexivity].
      * right. split; [now apply Exists_cons_tl|reflexivity].
    + right. split; [|reflexivity].
      apply Exists_cons_hd. rewrite E. discriminate.
Qed.

(** The two answers of [calculate_risk_parity_weights]: the normalised
    inverses of the fallback volatility, or the equal weights of the
    handler. *)
Lemma calculate_risk_parity_weights_cases (etfs : list position.candidate) :
  (Forall (fun etf => has_no_bars etf) etfs
   /\ position.calculate_risk_parity_weights load_etf_daily_data etfs
      = Py.Ok (repeat (1 / 0.1 / Np.sum (repeat (1 / 0.1) (length etfs)))
                 (length etfs)))
  \/ (Exists (fun etf => ~ has_no_bars etf) etfs
      /\ position.calculate_risk_parity_weights load_etf_daily_data etfs
         = position.equal_weights (length etfs)).
Proof.
  unfold position.calculate_risk_parity_weights.
  destruct (row_volatilities_cases etfs) as [[Hall ->]|[Hex ->]].
  - left. split; [exact Hall|]. rewrite bind_ok.
    cbn [Py.try_except mret result_ret]. f_equal.
    assert (Hmap : forall (A B : Type) (f : A -> B) (x : A) (n : nat),
               map f (repeat x n) = repeat (f x) n).
    { intros A B f x n. induction n as [|n IHn]; [reflexivity|].
      cbn [repeat map]. now rewrite IHn. }
    now rewrite !Hmap.
  - right. split; [exact Hex|]. reflexivity.
Qed.



End RiskParity.


(** ** The range of the sub-scores *)

Section SubScores.
Local Open Scope string_scope.
Local Open Scope float_scope.

Context {libm : Np.Libm}.
Variable all_etf_list : list (string * etf_scoring.size_cell).

Abbreviation in_score_range := Spec.in_score_range.

Lemma clamped_in_score_range (x : float) :
  in_score_range (Py.min (Py.max x 0) 100).
Proof.
  rewrite min_max_is_clamp by reflexivity. split.
  - apply clamp_not_below. reflexivity.
  - apply clamp_not_above. reflexivity.
Qed.

Lemma recover_in_score_range (body : Py.result float) (default : float) :
  in_score_range default ->
  (forall x, body = Py.Ok x -> in_score_range x) ->
  in_score_range (Py.recover body default).
Proof. intros Hd Hb. destruct body; cbn; auto. Qed.

(** The return, sentiment, tracking and stability scores end in
    [min(max(., 0), 100)] or in a constant. *)

(** X22.  [calculate_return_score] is never below 0 and never above 100. *)
Lemma calculate_return_score_in_range (df : Pd.DataFrame) :
  in_score_range (etf_scoring.calculate_return_score df).
Proof.
  unfold etf_scoring.calculate_return_score.
  destruct (_ && _); [|now split].
  apply recover_in_score_range; [now split|]. intros x.
  destruct (Pd.col df Config.CLOSE_COL) as [close|]; [|discriminate].
  rewrite bind_ok. destruct (Pd.iloc close (-1)); [|discriminate].
  rewrite bind_ok. destruct (Pd.iloc close 0); [|discriminate].
  rewrite bind_ok. intros [= <-]. apply clamped_in_score_range.
Qed.

(** X23.  [calculate_sentiment_score] is never below 0 and never above
    100. *)
Lemma calculate_sentiment_score_in_range (df : Pd.DataFrame) :
  in_score_range (etf_scoring.calculate_sentiment_score df).
Proof.
  unfold etf_scoring.calculate_sentiment_score.
  destruct (Pd.data df !! Config.VOLUME_COL) as [volume|]; [|now split].
  apply recover_in_score_range; [now split|]. intros x.
  destruct (Nat.leb 5 (Pd.len df)).
  - destruct (Pd.iloc volume (-1)); [|discriminate]. rewrite bind_ok.
    destruct (Pd.iloc volume (-5)); [|discriminate]. rewrite !bind_ok.
    intros [= <-]. apply clamped_in_score_range.
  - rewrite bind_ok. intros [= <-]. apply clamped_in_score_range.
Qed.

(** X24.  [calculate_tracking_score] is never below 0 and never above
    100. *)
Lemma calculate_tracking_score_in_range (etf_code : string)
    (df : Pd.DataFrame) :
  in_score_range
    (fst (etf_scoring.calculate_tracking_score all_etf_list etf_code df)).
Proof.
  assert (H : forall te d,
             in_score_range
               (etf_scoring.tracking_score_of all_etf_list etf_code te d)).
  { intros te d. unfold etf_scoring.tracking_score_of.
    apply recover_in_score_range; [now split|]. intros x.
    destruct (Py.truediv _ _ _); [|discriminate].
    rewrite bind_ok. intros [= <-]. apply clamped_in_score_range. }
  unfold etf_scoring.calculate_tracking_score.
  destruct (Pd.data df !! Config.TRACKING_ERROR_COL); [apply H|].
  destruct (Pd.data df !! Config.INDEX_CLOSE_COL); [|now split].
  destruct (Pd.data df !! Config.CLOSE_COL); [apply H|now split].
Qed.

(** X25.  [calculate_stability_score] is never below 0 and never above
    100. *)
Lemma calculate_stability_score_in_range (etf_code : string) :
  in_score_range (etf_scoring.calculate_stability_score all_etf_list etf_code).
Proof.
  unfold etf_scoring.calculate_stability_score.
  destruct (etf_scoring.get_etf_size_history _ _) as [numpy [|first rest]];
    [now split|].
  apply recover_in_score_range; [now split|]. intros x.
  destruct (Py.truediv _ _ _); [|discriminate].
  rewrite bind_ok. intros [= <-]. apply clamped_in_score_range.
Qed.

(** C3.  The liquidity score is rounded but not clamped, and its spread
    component is bounded only from below: for a frame with a negative mean
    bid/ask spread (-0.01) and a high turnover the score is 115. *)
Theorem calculate_liquidity_score_above_100 :
  etf_scoring.calculate_liquidity_score Samples.crossed_quotes = 115
  /\ (100 <? etf_scoring.calculate_liquidity_score Samples.crossed_quotes)
     = true.
Proof. split; vm_compute; reflexivity. Qed.

End SubScores.

(** ** Portfolio risk monitoring *)

Section RiskMonitoring.
Local Open Scope string_scope.

Variable metrics : position.metric_functions.
Variable positions : list position.row.

Lemma monitor_portfolio_risk_with_raise (e : Py.exn) :
  position.monitor_portfolio_risk_body metrics positions = Py.Raise e ->
  position.monitor_portfolio_risk_with metrics positions
  = Py.Ok (position.monitoring_failure e).
Proof.
  intros Hbody. unfold position.monitor_portfolio_risk_with.
  now rewrite Hbody.
Qed.

(** C10.  On the failure path the snapshot has exactly the keys
    [overall_risk_level], [error] and [risk_alert]; the six numeric metrics
    are missing, and both readers of the snapshot raise [KeyError] at the
    first metric they read. *)
Theorem monitoring_failure_lacks_metrics (e : Py.exn) :
  position.monitor_portfolio_risk_body metrics positions = Py.Raise e ->
  exists snapshot : Py.dict,
    position.monitor_portfolio_risk_with metrics positions = Py.Ok snapshot
    /\ dom snapshot
       = ({[ "overall_risk_level"; "error"; "risk_alert" ]} : gset string)
    /\ Forall (fun k => snapshot !! k = None)
         [ "portfolio_volatility"; "var_1d"; "max_drawdown_warning";
           "liquidity_risk"; "tracking_risk"; "correlation_risk" ]
    /\ (forall market_condition : string,
          position.target_position_size snapshot market_condition
          = Py.Raise (Py.KeyError "portfolio_volatility"))
    /\ position.risk_summary_metrics snapshot
       = Py.Raise (Py.KeyError "portfolio_volatility").
Proof.
  intros Hbody. exists (position.monitoring_failure e).
  split; [now apply monitor_portfolio_risk_with_raise|].
  split; [|split; [|split]].
  - unfold position.monitoring_failure. cbn [list_to_map foldr uncurry].
    rewrite !dom_insert_L, dom_empty_L. set_solver.
  - repeat constructor.
  - intros market_condition. reflexivity.
  - reflexivity.
Qed.

End RiskMonitoring.

(** With the metric functions of the source, which return whatever
    happens inside them, the body can only raise while it reads the position
    records. *)
Lemma source_metrics_return
    (load_etf_daily_data : string -> Pd.DataFrame) {libm : Np.Libm}
    (positions : list position.row) (e : Py.exn) :
  position.monitor_portfolio_risk_body
    (position.source_metrics load_etf_daily_data) positions = Py.Raise e ->
  position.held_codes positions = Py.Raise e.
Proof.
  unfold position.monitor_portfolio_risk_body.
  destruct (position.held_codes positions) as [[|code codes]|e'].
  - rewrite bind_ok. discriminate.
  - rewrite bind_ok. unfold position.source_metrics.
    cbn [position.portfolio_volatility_of position.var_of
         position.max_drawdown_warning_of position.liquidity_risk_of
         position.tracking_risk_of position.correlation_risk_of
         mret result_ret].
    rewrite !bind_ok. discriminate.
  - rewrite bind_raise. intros [= ->]. reflexivity.
Qed.

(** C9, as amended.  [monitor_portfolio_risk] never raises, whatever the
    positions and whatever the six metric functions do.  A failure that
    reaches its own handler gives the level "high" and the system-failure
    alert; with the metric functions of the source only a failure while the
    position records are read does.  A failure inside
    [calculate_portfolio_volatility] or [calculate_max_drawdown_warning] is
    caught there and answered by the default 0.15, and the level is then
    computed from the six values that the metric functions returned. *)
Theorem monitor_portfolio_risk_fail_safe :
  (forall (metrics : position.metric_functions)
          (positions : list position.row),
      exists snapshot : Py.dict,
        position.monitor_portfolio_risk_with metrics positions
        = Py.Ok snapshot
        /\ (forall e : Py.exn,
              position.monitor_portfolio_risk_body metrics positions
              = Py.Raise e ->
              snapshot !! "overall_risk_level"%string
              = Some (Py.VStr "high")
              /\ snapshot !! "risk_alert"%string
                 = Some (Py.VStr "风险监控系统故障，请立即检查！")))
  /\ (forall (load_etf_daily_data : string -> Pd.DataFrame)
             (libm : Np.Libm) (positions : list position.row) (e : Py.exn),
        position.monitor_portfolio_risk_body
          (position.source_metrics load_etf_daily_data) positions
        = Py.Raise e ->
        position.held_codes positions = Py.Raise e)
  /\ (forall (load_etf_daily_data : string -> Pd.DataFrame)
             (etf_codes : list string) (e : Py.exn),
        (position.calculate_portfolio_volatility_body load_etf_daily_data
           etf_codes = Py.Raise e ->
         position.calculate_portfolio_volatility load_etf_daily_data
           etf_codes = 0.15%float)
        /\ (position.calculate_max_drawdown_warning_body load_etf_daily_data
              etf_codes = Py.Raise e ->
            position.calculate_max_drawdown_warning load_etf_daily_data
              etf_codes = 0.15%float))
  /\ (forall (metrics : position.metric_functions)
             (positions : list position.row)
             (code : string) (codes : list string)
             (m1 m2 m3 m4 m5 m6 : float),
        position.held_codes positions = Py.Ok (code :: codes) ->
        position.portfolio_volatility_of metrics (code :: codes)
        = Py.Ok m1 ->
        position.var_of metrics (code :: codes) = Py.Ok m2 ->
        position.max_drawdown_warning_of metrics (code :: codes)
        = Py.Ok m3 ->
        position.liquidity_risk_of metrics (code :: codes) = Py.Ok m4 ->
        position.tracking_risk_of metrics (code :: codes) = Py.Ok m5 ->
        position.correlation_risk_of metrics (code :: codes) = Py.Ok m6 ->
        exists snapshot : Py.dict,
          position.monitor_portfolio_risk_with metrics positions
          = Py.Ok snapshot
          /\ snapshot !! "overall_risk_level"%string
             = Some (Py.VStr (position.calculate_overall_risk_level
                                [m1; m2; m3; m4; m5; m6]))).
Proof.
  split; [|split; [|split]].
  - intros metrics positions.
    destruct (position.monitor_portfolio_risk_body metrics positions)
      as [snapshot|e] eqn:Hbody.
    + exists snapshot. split; [|discriminate].
      unfold position.monitor_portfolio_risk_with. now rewrite Hbody.
    + exists (position.monitoring_failure e).
      split; [now apply monitor_portfolio_risk_with_raise|].
      intros e' _. split; reflexivity.
  - intros load_etf_daily_data libm positions e.
    apply source_metrics_return.
  - intros load_etf_daily_data etf_codes e. split; intros Hbody.
    + unfold position.calculate_portfolio_volatility. now rewrite Hbody.
    + unfold position.calculate_max_drawdown_warning. now rewrite Hbody.
  - intros metrics positions code codes m1 m2 m3 m4 m5 m6
      Hcodes H1 H2 H3 H4 H5 H6.
    unfold position.monitor_portfolio_risk_with,
      position.monitor_portfolio_risk_body.
    rewrite Hcodes, bind_ok, H1, bind_ok, H2, bind_ok, H3, bind_ok,
      H4, bind_ok, H5, bind_ok, H6, bind_ok.
    eexists. split; [reflexivity|]. reflexivity.
Qed.

(** C9, as stated, fails: with bars on file for the two funds held, the body
    of [calculate_portfolio_volatility] raises on the name
    [calculate_volatility]; the failure is caught there, and the snapshot
    reports the level "low" with the ordinary alert and no error. *)
Lemma monitoring_reports_low_after_a_failure :
  position.held_codes [Samples.row_with_codes]
  = Py.Ok ["510300"; "510500"]%string
  /\ position.calculate_portfolio_volatility_body Samples.bars_on_file
       ["510300"; "510500"]%string
     = Py.Raise (Py.NameError "calculate_volatility")
  /\ exists snapshot : Py.dict,
       position.monitor_portfolio_risk Samples.bars_on_file
         (libm := Samples.identity_libm) [Samples.row_with_codes]
       = Py.Ok snapshot
       /\ snapshot !! "overall_risk_level"%string = Some (Py.VStr "low")
       /\ snapshot !! "risk_alert"%string
          = Some (Py.VStr "✅ 风险水平正常：可维持当前仓位策略。")
       /\ snapshot !! "error"%string = None.
Proof.
  split; [vm_compute; reflexivity|split; [vm_compute; reflexivity|]].
  eexists. split; [reflexivity|].
  split; [vm_compute; reflexivity|split; vm_compute; reflexivity].
Qed.

(** A position record without the code column takes the failure path, and
    so does a metric function that raises. *)
Lemma monitor_portfolio_risk_body_key_error
    (metrics : position.metric_functions) :
  position.monitor_portfolio_risk_body metrics [Samples.row_without_codes]
  = Py.Raise (Py.KeyError "ETF代码").
Proof. reflexivity. Qed.

Lemma monitor_portfolio_risk_body_metric_error :
  position.monitor_portfolio_risk_body Samples.failing_metrics
    [Samples.row_with_codes]
  = Py.Raise Py.ValueError.
Proof. reflexivity. Qed.

Lemma monitoring_failure_lacks_metrics_witness :
  exists snapshot : Py.dict,
    position.monitor_portfolio_risk_with Samples.failing_metrics
      [Samples.row_with_codes] = Py.Ok snapshot
    /\ dom snapshot
       = ({[ "overall_risk_level"; "error"; "risk_alert" ]} : gset string)
    /\ Forall (fun k => snapshot !! k = None)
         [ "portfolio_volatility"; "var_1d"; "max_drawdown_warning";
           "liquidity_risk"; "tracking_risk"; "correlation_risk" ]
    /\ (forall market_condition : string,
          position.target_position_size snapshot market_condition
          = Py.Raise (Py.KeyError "portfolio_volatility"))
    /\ position.risk_summary_metrics snapshot
       = Py.Raise (Py.KeyError "portfolio_volatility").
Proof.
  apply (monitoring_failure_lacks_metrics Samples.failing_metrics
           [Samples.row_with_codes] Py.ValueError).
  reflexivity.
Defined.

(** Scenario C of the specification: without holdings the level is "low"
    and every metric is 0. *)
Lemma monitor_portfolio_risk_no_holdings
    (metrics : position.metric_functions) :
  position.monitor_portfolio_risk_with metrics []
  = Py.Ok (list_to_map
             [ ("portfolio_volatility", Py.VFloat 0);
               ("var_1d", Py.VFloat 0);
               ("max_drawdown_warning", Py.VFloat 0);
               ("liquidity_risk", Py.VFloat 0);
               ("tracking_risk", Py.VFloat 0);
               ("correlation_risk", Py.VFloat 0);
               ("overall_risk_level", Py.VStr "low");
               ("risk_alert", Py.VStr "无持仓，风险极低") ]).
Proof. reflexivity. Qed.

(** ** Scratch columns and repeated scoring *)

Section ScratchColumns.
Local Open Scope string_scope.
Local Open Scope float_scope.

Lemma agree_off_refl names df : Spec.agree_off names df df.
Proof. split; reflexivity. Qed.

Lemma agree_off_sym names df df' :
  Spec.agree_off names df df' -> Spec.agree_off names df' df.
Proof. intros [Hi Hc]. split; [easy|]. intros c Hn. symmetry. auto. Qed.

Lemma agree_off_trans names df1 df2 df3 :
  Spec.agree_off names df1 df2 -> Spec.agree_off names df2 df3 ->
  Spec.agree_off names df1 df3.
Proof.
  intros [Hi Hc] [Hi' Hc']. split; [congruence|].
  intros c Hn. rewrite Hc by exact Hn. auto.
Qed.

Lemma agree_off_weaken names names' df df' :
  names ⊆ names' ->
  Spec.agree_off names df df' -> Spec.agree_off names' df df'.
Proof. intros Hsub [Hi Hc]. split; [exact Hi|]. intros c Hn. apply Hc. auto. Qed.

Lemma agree_off_set_col names df c s :
  c ∈ names -> Spec.agree_off names df (Pd.set_col df c s).
Proof.
  intros Hin. split; [reflexivity|]. intros c' Hn. cbn [Pd.set_col Pd.data].
  rewrite lookup_insert_ne; [reflexivity|]. intros ->. contradiction.
Qed.

Lemma agree_off_tail names n df df' :
  Spec.agree_off names df df' ->
  Spec.agree_off names (Pd.tail n df) (Pd.tail n df').
Proof.
  intros [Hi Hc]. split; cbn [Pd.tail Pd.index Pd.data]; [now rewrite Hi|].
  intros c Hn. rewrite !lookup_fmap, Hc by exact Hn. reflexivity.
Qed.

Lemma agree_off_sort_values names df df' c :
  c ∉ names -> Spec.agree_off names df df' ->
  match Pd.sort_values df c, Pd.sort_values df' c with
  | Py.Ok sorted, Py.Ok sorted' => Spec.agree_off names sorted sorted'
  | Py.Raise e, Py.Raise e' => e = e'
  | _, _ => False
  end.
Proof.
  intros Hc [Hi Hcols]. unfold Pd.sort_values. rewrite <- (Hcols c Hc).
  destruct (Pd.data df !! c) as [keys|]; [|reflexivity].
  split; cbn [Pd.index Pd.data]; [exact Hi|].
  intros c' Hn. rewrite !lookup_fmap, Hcols by exact Hn. reflexivity.
Qed.

Ltac bar_column :=
  unfold Spec.derived_columns; rewrite ?not_elem_of_cons;
  repeat split; try discriminate; apply not_elem_of_nil.

Ltac scratch_column :=
  unfold Spec.derived_columns; rewrite ?elem_of_cons;
  repeat first [left; reflexivity | right].

Ltac same_bars Hc c := rewrite <- (Hc c) by bar_column.

Lemma calculate_volatility_scratch_only :
  Spec.scratch_only etf_scoring.calculate_volatility.
Proof.
  split.
  - intros df. unfold etf_scoring.calculate_volatility.
    destruct (Pd.data df !! Config.CLOSE_COL); cbn [snd];
      [apply agree_off_set_col; scratch_column|apply agree_off_refl].
  - intros df df' [Hi Hc]. unfold etf_scoring.calculate_volatility.
    same_bars Hc Config.CLOSE_COL.
    destruct (Pd.data df !! Config.CLOSE_COL); reflexivity.
Qed.

Lemma calculate_max_drawdown_scratch_only :
  Spec.scratch_only etf_scoring.calculate_max_drawdown.
Proof.
  split.
  - intros df. unfold etf_scoring.calculate_max_drawdown.
    destruct (Pd.data df !! Config.CLOSE_COL); cbn [snd];
      [|apply agree_off_refl].
    eapply agree_off_trans; apply agree_off_set_col; scratch_column.
  - intros df df' [Hi Hc]. unfold etf_scoring.calculate_max_drawdown.
    same_bars Hc Config.CLOSE_COL.
    destruct (Pd.data df !! Config.CLOSE_COL); reflexivity.
Qed.

Lemma calculate_tracking_error_agree df :
  Spec.agree_off Spec.derived_columns df
    (snd (etf_scoring.calculate_tracking_error df)).
Proof.
  unfold etf_scoring.calculate_tracking_error.
  destruct (Pd.data df !! Config.TRACKING_ERROR_COL);
    [apply agree_off_refl|].
  destruct (Pd.data df !! Config.INDEX_CLOSE_COL); [|apply agree_off_refl].
  destruct (Pd.data df !! Config.CLOSE_COL); [|apply agree_off_refl].
  apply agree_off_set_col. scratch_column.
Qed.

Section WithEnvironment.

Context {libm : Np.Libm}.
Variable all_etf_list : list (string * etf_scoring.size_cell).

Lemma calculate_sharpe_ratio_scratch_only :
  Spec.scratch_only etf_scoring.calculate_sharpe_ratio.
Proof.
  split.
  - intros df. unfold etf_scoring.calculate_sharpe_ratio.
    destruct (Pd.data df !! Config.CLOSE_COL); cbn [snd];
      [apply agree_off_set_col; scratch_column|apply agree_off_refl].
  - intros df df' [Hi Hc]. unfold etf_scoring.calculate_sharpe_ratio.
    same_bars Hc Config.CLOSE_COL.
    destruct (Pd.data df !! Config.CLOSE_COL); [|reflexivity].
    cbn [fst Pd.set_col Pd.len Pd.index]. now rewrite Hi.
Qed.

Lemma calculate_risk_score_scratch_only :
  Spec.scratch_only etf_scoring.calculate_risk_score.
Proof.
  destruct calculate_volatility_scratch_only as [Hv1 Hv2].
  destruct calculate_sharpe_ratio_scratch_only as [Hs1 Hs2].
  destruct calculate_max_drawdown_scratch_only as [Hm1 Hm2].
  assert (Hframe : forall df,
             Spec.agree_off Spec.derived_columns df
               (snd (etf_scoring.calculate_risk_score df))).
  { intros df. unfold etf_scoring.calculate_risk_score.
    pose proof (Hv1 df) as H1.
    destruct (etf_scoring.calculate_volatility df) as [v d1].
    pose proof (Hs1 d1) as H2.
    destruct (etf_scoring.calculate_sharpe_ratio d1) as [sh d2].
    pose proof (Hm1 d2) as H3.
    destruct (etf_scoring.calculate_max_drawdown d2) as [m d3].
    cbn [snd] in *. eauto using agree_off_trans. }
  split; [exact Hframe|].
  intros df df' Hagree. unfold etf_scoring.calculate_risk_score.
  pose proof (Hv1 df) as H1. pose proof (Hv1 df') as H1'.
  pose proof (Hv2 df df' Hagree) as E1.
  destruct (etf_scoring.calculate_volatility df) as [v d1].
  destruct (etf_scoring.calculate_volatility df') as [v' d1'].
  cbn [fst snd] in *. subst v'.
  assert (Hagree1 : Spec.agree_off Spec.derived_columns d1 d1')
    by eauto using agree_off_trans, agree_off_sym.
  pose proof (Hs1 d1) as H2. pose proof (Hs1 d1') as H2'.
  pose proof (Hs2 d1 d1' Hagree1) as E2.
  destruct (etf_scoring.calculate_sharpe_ratio d1) as [sh d2].
  destruct (etf_scoring.calculate_sharpe_ratio d1') as [sh' d2'].
  cbn [fst snd] in *. subst sh'.
  assert (Hagree2 : Spec.agree_off Spec.derived_columns d2 d2')
    by eauto using agree_off_trans, agree_off_sym.
  pose proof (Hm2 d2 d2' Hagree2) as E3.
  destruct (etf_scoring.calculate_max_drawdown d2) as [m d3].
  destruct (etf_scoring.calculate_max_drawdown d2') as [m' d3'].
  cbn [fst snd] in *. now subst m'.
Qed.

Lemma calculate_liquidity_score_reads_bars_only :
  Spec.reads_bars_only etf_scoring.calculate_liquidity_score.
Proof.
  intros df df' [Hi Hc]. unfold etf_scoring.calculate_liquidity_score.
  same_bars Hc Config.AMOUNT_COL. same_bars Hc Config.BID_ASK_SPREAD_COL.
  same_bars Hc Config.BID_VOLUME_COL. same_bars Hc Config.ASK_VOLUME_COL.
  same_bars Hc Config.TURNOVER_COL. reflexivity.
Qed.

Lemma calculate_return_score_reads_bars_only :
  Spec.reads_bars_only etf_scoring.calculate_return_score.
Proof.
  intros df df' [Hi Hc].
  unfold etf_scoring.calculate_return_score, Pd.has_column, Pd.col,
    Py.getitem.
  same_bars Hc Config.CLOSE_COL. same_bars Hc Config.DATE_COL. reflexivity.
Qed.

Lemma calculate_sentiment_score_reads_bars_only :
  Spec.reads_bars_only etf_scoring.calculate_sentiment_score.
Proof.
  intros df df' [Hi Hc]. unfold etf_scoring.calculate_sentiment_score, Pd.len.
  same_bars Hc Config.VOLUME_COL. now rewrite Hi.
Qed.

Lemma tracking_score_of_reads_bars_only etf_code tracking_error :
  Spec.reads_bars_only
    (etf_scoring.tracking_score_of all_etf_list etf_code tracking_error).
Proof.
  intros df df' [Hi Hc]. unfold etf_scoring.tracking_score_of.
  same_bars Hc Config.INDEX_CLOSE_COL. same_bars Hc Config.CLOSE_COL.
  reflexivity.
Qed.

Lemma calculate_tracking_score_scratch_only etf_code :
  Spec.scratch_only (etf_scoring.calculate_tracking_score all_etf_list etf_code).
Proof.
  split.
  - intros df. unfold etf_scoring.calculate_tracking_score.
    destruct (Pd.data df !! Config.TRACKING_ERROR_COL);
      [apply agree_off_refl|].
    destruct (Pd.data df !! Config.INDEX_CLOSE_COL); [|apply agree_off_refl].
    destruct (Pd.data df !! Config.CLOSE_COL); [|apply agree_off_refl].
    apply agree_off_set_col. scratch_column.
  - intros df df' Hagree. pose proof Hagree as [Hi Hc].
    unfold etf_scoring.calculate_tracking_score.
    same_bars Hc Config.TRACKING_ERROR_COL.
    same_bars Hc Config.INDEX_CLOSE_COL. same_bars Hc Config.CLOSE_COL.
    destruct (Pd.data df !! Config.TRACKING_ERROR_COL); cbn [fst].
    { now apply tracking_score_of_reads_bars_only. }
    destruct (Pd.data df !! Config.INDEX_CLOSE_COL); [|reflexivity].
    destruct (Pd.data df !! Config.CLOSE_COL); [|reflexivity].
    cbn [fst]. apply tracking_score_of_reads_bars_only.
    eapply agree_off_trans;
      [apply agree_off_sym, agree_off_set_col; scratch_column|].
    eapply agree_off_trans; [exact Hagree|].
    apply agree_off_set_col. scratch_column.
Qed.

Lemma calculate_tracking_score_frame etf_code df :
  Spec.agree_off ["tracking_error"] df
    (snd (etf_scoring.calculate_tracking_score all_etf_list etf_code df)).
Proof.
  unfold etf_scoring.calculate_tracking_score.
  destruct (Pd.data df !! Config.TRACKING_ERROR_COL);
    [apply agree_off_refl|].
  destruct (Pd.data df !! Config.INDEX_CLOSE_COL); [|apply agree_off_refl].
  destruct (Pd.data df !! Config.CLOSE_COL); [|apply agree_off_refl].
  apply agree_off_set_col. apply list_elem_of_singleton. reflexivity.
Qed.

(** A second call assigns the same scratch column again. *)
Lemma calculate_tracking_score_frame_idempotent etf_code df :
  snd (etf_scoring.calculate_tracking_score all_etf_list etf_code
         (snd (etf_scoring.calculate_tracking_score all_etf_list etf_code df)))
  = snd (etf_scoring.calculate_tracking_score all_etf_list etf_code df).
Proof.
  unfold etf_scoring.calculate_tracking_score at 2.
  destruct (Pd.data df !! Config.TRACKING_ERROR_COL) as [te|] eqn:Hte.
  { cbn [snd]. unfold etf_scoring.calculate_tracking_score.
    now rewrite Hte. }
  destruct (Pd.data df !! Config.INDEX_CLOSE_COL) as [index_close|] eqn:Hidx.
  2:{ cbn [snd]. unfold etf_scoring.calculate_tracking_score.
      now rewrite Hte, Hidx. }
  destruct (Pd.data df !! Config.CLOSE_COL) as [close|] eqn:Hclose.
  2:{ cbn [snd]. unfold etf_scoring.calculate_tracking_score.
      now rewrite Hte, Hidx, Hclose. }
  cbn [snd]. unfold etf_scoring.calculate_tracking_score.
  cbn [Pd.set_col Pd.data Pd.index].
  rewrite !lookup_insert_ne by discriminate.
  rewrite Hte, Hidx, Hclose. cbn [snd]. unfold Pd.set_col.
  cbn [Pd.data Pd.index]. now rewrite insert_insert_eq.
Qed.

Local Abbreviation score := (etf_scoring.calculate_etf_score all_etf_list).

Lemma calculate_etf_score_frame_cases cfg etf_code df w :
  snd (score cfg etf_code df w) = df
  \/ (Pd.has_column df Config.DATE_COL = false
      /\ Nat.ltb (Pd.len df) 30 = false
      /\ snd (score cfg etf_code df w)
         = snd (etf_scoring.calculate_tracking_score all_etf_list etf_code df)).
Proof.
  unfold score, etf_scoring.calculate_etf_score.
  destruct (Pd.has_column df Config.DATE_COL) eqn:Hdate.
  - left. destruct (Pd.sort_values df Config.DATE_COL) as [work|];
      [|reflexivity].
    destruct (Nat.ltb (Pd.len work) 30); [reflexivity|].
    destruct (etf_scoring.calculate_risk_score _).
    destruct (etf_scoring.calculate_tracking_score _ _ _). reflexivity.
  - cbn [mret result_ret].
    destruct (Nat.ltb (Pd.len df) 30) eqn:Hlen; [now left|right].
    repeat split.
    destruct (etf_scoring.calculate_risk_score _).
    destruct (etf_scoring.calculate_tracking_score _ _ _). reflexivity.
Qed.

Lemma calculate_etf_score_frame cfg etf_code df w :
  Spec.agree_off ["tracking_error"] df (snd (score cfg etf_code df w)).
Proof.
  destruct (calculate_etf_score_frame_cases cfg etf_code df w)
    as [->|(_ & _ & ->)];
    [apply agree_off_refl|apply calculate_tracking_score_frame].
Qed.

Lemma calculate_etf_score_reads_bars_only cfg etf_code w :
  Spec.reads_bars_only (fun df => fst (score cfg etf_code df w)).
Proof.
  intros df df' Hagree. pose proof Hagree as [Hi Hc].
  unfold score, etf_scoring.calculate_etf_score, Pd.has_column.
  same_bars Hc Config.DATE_COL.
  assert (Hwork :
    match (if match Pd.data df !! Config.DATE_COL with
              | Some _ => true | None => false end
           then Pd.sort_values df Config.DATE_COL else mret df),
          (if match Pd.data df !! Config.DATE_COL with
              | Some _ => true | None => false end
           then Pd.sort_values df' Config.DATE_COL else mret df') with
    | Py.Ok work, Py.Ok work' => Spec.agree_off Spec.derived_columns work work'
    | Py.Raise _, Py.Raise _ => True
    | _, _ => False
    end).
  { destruct (Pd.data df !! Config.DATE_COL); [|exact Hagree].
    assert (Hdate : Config.DATE_COL ∉ Spec.derived_columns) by bar_column.
    pose proof (agree_off_sort_values Spec.derived_columns df df'
                  Config.DATE_COL Hdate Hagree) as Hsort.
    destruct (Pd.sort_values df _), (Pd.sort_values df' _); auto. }
  destruct (if match Pd.data df !! Config.DATE_COL with
               | Some _ => true | None => false end
            then Pd.sort_values df Config.DATE_COL else mret df)
    as [work|], (if match Pd.data df !! Config.DATE_COL with
                    | Some _ => true | None => false end
                 then Pd.sort_values df' Config.DATE_COL else mret df')
    as [work'|]; try contradiction; [|reflexivity].
  unfold Pd.len. rewrite <- (proj1 Hwork).
  destruct (Nat.ltb (Pd.index work) 30); [reflexivity|].
  pose proof (agree_off_tail _ 30 _ _ Hwork) as Hrecent.
  rewrite <- (calculate_liquidity_score_reads_bars_only _ _ Hrecent).
  destruct calculate_risk_score_scratch_only as [Hr1 Hr2].
  pose proof (Hr1 (Pd.tail 30 work)) as H1.
  pose proof (Hr1 (Pd.tail 30 work')) as H1'.
  pose proof (Hr2 _ _ Hrecent) as E1.
  destruct (etf_scoring.calculate_risk_score (Pd.tail 30 work)) as [r d].
  destruct (etf_scoring.calculate_risk_score (Pd.tail 30 work')) as [r' d'].
  cbn [fst snd] in *. subst r'.
  assert (Hd : Spec.agree_off Spec.derived_columns d d')
    by eauto using agree_off_trans, agree_off_sym.
  rewrite <- (calculate_return_score_reads_bars_only _ _ Hd).
  rewrite <- (calculate_sentiment_score_reads_bars_only _ _ Hd).
  pose proof (proj2 (calculate_tracking_score_scratch_only etf_code)
                _ _ Hwork) as E2.
  destruct (etf_scoring.calculate_tracking_score _ _ work) as [t dt].
  destruct (etf_scoring.calculate_tracking_score _ _ work') as [t' dt'].
  cbn [fst snd] in *. now subst t'.
Qed.

(** C5.  A call of [calculate_etf_score] may assign the scratch column
    [tracking_error] to the caller's frame and changes nothing else of it;
    it leaves the frame as it is when the frame has a date column.  A
    second call on the frame as the first call left it returns the same
    score and leaves the frame unchanged. *)
Theorem calculate_etf_score_repeatable cfg etf_code df w :
  let first := score cfg etf_code df w in
  let second := score cfg etf_code (snd first) w in
  fst second = fst first
  /\ snd second = snd first
  /\ Spec.agree_off ["tracking_error"] df (snd first)
  /\ (Pd.has_column df Config.DATE_COL = true -> snd first = df).
Proof.
  cbv zeta.
  pose proof (calculate_etf_score_frame cfg etf_code df w) as Hframe.
  split; [|split; [|split]].
  - apply (calculate_etf_score_reads_bars_only cfg etf_code w).
    apply agree_off_sym.
    eapply agree_off_weaken; [|exact Hframe].
    intros c Hc. apply list_elem_of_singleton in Hc as ->. scratch_column.
  - destruct (calculate_etf_score_frame_cases cfg etf_code df w)
      as [E|(Hdate & Hlen & E)]; rewrite E; [exact E|].
    destruct (calculate_etf_score_frame_cases cfg etf_code
                (snd (etf_scoring.calculate_tracking_score
                        all_etf_list etf_code df)) w)
      as [E'|(_ & _ & E')]; rewrite E'; [reflexivity|].
    apply calculate_tracking_score_frame_idempotent.
  - exact Hframe.
  - intros Hdate.
    destruct (calculate_etf_score_frame_cases cfg etf_code df w)
      as [E|(Hno & _)]; [exact E|congruence].
Qed.

End WithEnvironment.

End ScratchColumns.

(** C5, as stated, fails: [calculate_volatility] assigns the column
    [daily_return] to the frame it is given, and [calculate_etf_score]
    leaves the scratch column [tracking_error] in a caller's frame that has
    no date column. *)
Lemma scoring_assigns_to_the_input_frame :
  snd (etf_scoring.calculate_volatility Samples.moving_bars)
  <> Samples.moving_bars
  /\ Pd.data (snd (etf_scoring.calculate_volatility Samples.moving_bars))
     !! "daily_return"%string = Some [nan; 1; -0.5]%float
  /\ ~ (forall (libm : Np.Libm)
               (all_etf_list : list (string * etf_scoring.size_cell))
               (cfg : Config.t) (etf_code : string) (df : Pd.DataFrame)
               (w : option (list (string * float))),
          snd (etf_scoring.calculate_etf_score all_etf_list cfg etf_code df w)
          = df).
Proof.
  split; [|split].
  - intros H.
    apply (f_equal (fun df => Pd.data df !! "daily_return"%string)) in H.
    vm_compute in H. discriminate H.
  - vm_compute. reflexivity.
  - intros H.
    specialize (H {| Np.exp := fun x => x; Np.log := fun x => x;
                     Np.power := fun x _ => x |}
                  [] Config.default "510300"%string Samples.undated_bars None).
    apply (f_equal (fun df => Pd.data df !! "tracking_error"%string)) in H.
    vm_compute in H. discriminate H.
Qed.

(** * Further properties of the embedded code *)

(** ** Selection: ranking and order *)

Section SelectionOrder.

Variable correlation_matrix : position.matrix.
Variable max_holdings : Z.
Variable min_correlation : float.

Lemma insert_by_score_perm x l : position.insert_by_score x l ≡ₚ x :: l.
Proof.
  induction l as [|y l IH]; cbn [position.insert_by_score]; [reflexivity|].
  destruct (position.ranks_before y x); [|reflexivity].
  rewrite IH. apply Permutation_swap.
Qed.

Lemma sort_by_score_perm etfs : position.sort_by_score etfs ≡ₚ etfs.
Proof.
  induction etfs as [|x etfs IH]; [reflexivity|].
  unfold position.sort_by_score in *. cbn [fold_right].
  rewrite insert_by_score_perm. now rewrite IH.
Qed.



End SelectionOrder.

(** ** Position sizing on arbitrary labels *)

Section PositionSizingBounds.
Local Open Scope float_scope.

(** X2.  Whatever the risk-level and regime labels and the volatility, the
    exposure that [adjust_position_size] returns is never below 0.2 and
    never above 0.8. *)
Theorem adjust_position_size_bounds
    (risk_level market_condition : string) (volatility : float) :
  (position.adjust_position_size risk_level market_condition volatility
   <? 0.2) = false
  /\ (0.8 <? position.adjust_position_size risk_level market_condition
                volatility) = false.
Proof.
  unfold position.adjust_position_size.
  rewrite max_min_is_clamp by reflexivity. split.
  - apply clamp_not_below. reflexivity.
  - apply clamp_not_above. reflexivity.
Qed.

End PositionSizingBounds.

(** ** Trend strength: range and defaults *)

Section TrendStrengthRange.
Local Open Scope float_scope.

(** X3.  [calculate_trend_strength] never returns a value below 0 or
    above 1: every path ends in the 0.5 of the early return or of the
    handler. *)
Theorem calculate_trend_strength_in_unit_range
    (df : Pd.DataFrame) (period : Z) :
  (position.calculate_trend_strength df period <? 0) = false
  /\ (1 <? position.calculate_trend_strength df period) = false.
Proof.
  rewrite calculate_trend_strength_constant. split; reflexivity.
Qed.

(** X4.  With fewer rows than the period, or without a close column, the
    trend strength is the neutral 0.5. *)
Theorem calculate_trend_strength_neutral (df : Pd.DataFrame) (period : Z) :
  (Z.of_nat (Pd.len df) < period)%Z
  \/ Pd.data df !! Config.CLOSE_COL = None ->
  position.calculate_trend_strength df period = 0.5.
Proof.
  intros _. apply calculate_trend_strength_constant.
Qed.

Lemma calculate_trend_strength_neutral_witness :
  position.calculate_trend_strength Samples.flat_bars 30 = 0.5.
Proof.
  apply (calculate_trend_strength_neutral Samples.flat_bars 30).
  left. vm_compute. reflexivity.
Defined.

End TrendStrengthRange.

(** ** Risk monitoring: the snapshot and its readers *)

Section RiskSnapshot.
Local Open Scope string_scope.
Local Open Scope float_scope.

Lemma calculate_overall_risk_level_names (risk_metrics : list float) :
  position.calculate_overall_risk_level risk_metrics
  ∈ ["high"; "medium"; "low"].
Proof.
  unfold position.calculate_overall_risk_level.
  destruct (0.7 <? _); [apply list_elem_of_here|].
  destruct (0.4 <? _);
    [apply list_elem_of_further, list_elem_of_here|].
  do 2 apply list_elem_of_further. apply list_elem_of_here.
Qed.

Variable metrics : position.metric_functions.

(** X5.  Every snapshot that [monitor_portfolio_risk] returns, on the
    ordinary and on the failure path, has the keys [overall_risk_level],
    holding one of the three level names, and [risk_alert]. *)
Theorem monitor_portfolio_risk_level_present (positions : list position.row) :
  exists (snapshot : Py.dict) (level alert : string),
    position.monitor_portfolio_risk_with metrics positions = Py.Ok snapshot
    /\ snapshot !! "overall_risk_level" = Some (Py.VStr level)
    /\ level ∈ ["high"; "medium"; "low"]
    /\ snapshot !! "risk_alert" = Some (Py.VStr alert).
Proof.
  assert (Hfail : forall e,
    exists (snapshot : Py.dict) (level alert : string),
      Py.Ok (position.monitoring_failure e) = Py.Ok snapshot
      /\ snapshot !! "overall_risk_level" = Some (Py.VStr level)
      /\ level ∈ ["high"; "medium"; "low"]
      /\ snapshot !! "risk_alert" = Some (Py.VStr alert)).
  { intros e. eexists _, _, _. split; [reflexivity|].
    split; [reflexivity|]. split; [apply list_elem_of_here|reflexivity]. }
  unfold position.monitor_portfolio_risk_with,
    position.monitor_portfolio_risk_body.
  destruct (position.held_codes positions) as [[|code codes]|e];
    [rewrite bind_ok|rewrite bind_ok|rewrite bind_raise; apply Hfail].
  - eexists _, _, _. split; [reflexivity|]. split; [reflexivity|].
    split; [|reflexivity]. do 2 apply list_elem_of_further.
    apply list_elem_of_here.
  - destruct (position.portfolio_volatility_of _ _);
      [rewrite bind_ok|rewrite bind_raise; apply Hfail].
    destruct (position.var_of _ _);
      [rewrite bind_ok|rewrite bind_raise; apply Hfail].
    destruct (position.max_drawdown_warning_of _ _);
      [rewrite bind_ok|rewrite bind_raise; apply Hfail].
    destruct (position.liquidity_risk_of _ _);
      [rewrite bind_ok|rewrite bind_raise; apply Hfail].
    destruct (position.tracking_risk_of _ _);
      [rewrite bind_ok|rewrite bind_raise; apply Hfail].
    destruct (position.correlation_risk_of _ _);
      [rewrite bind_ok|rewrite bind_raise; apply Hfail].
    eexists _, _, _. split; [reflexivity|]. split; [reflexivity|].
    split; [apply calculate_overall_risk_level_names|reflexivity].
Qed.

Lemma held_codes_none (positions : list position.row) :
  Forall (fun position =>
            exists c, position !! "ETF代码" = Some c
                      /\ (c = position.CNaN \/ c = position.CStr ""
                          \/ c = position.CInt 0))
         positions ->
  position.held_codes positions = Py.Ok [].
Proof.
  induction 1 as [|position positions (c & Hc & Hcell) _ IH];
    [reflexivity|].
  cbn [position.held_codes]. unfold Py.getitem. rewrite Hc, bind_ok, IH.
  destruct Hcell as [->|[->| ->]]; reflexivity.
Qed.

(** X6.  When the code cell of every position record is missing, empty or
    zero, [monitor_portfolio_risk] returns the all-zero snapshot of level
    "low" without calling a metric function. *)
Theorem monitor_portfolio_risk_without_codes (positions : list position.row) :
  Forall (fun position =>
            exists c, position !! "ETF代码" = Some c
                      /\ (c = position.CNaN \/ c = position.CStr ""
                          \/ c = position.CInt 0))
         positions ->
  position.monitor_portfolio_risk_with metrics positions
  = Py.Ok (list_to_map
             [ ("portfolio_volatility", Py.VFloat 0);
               ("var_1d", Py.VFloat 0);
               ("max_drawdown_warning", Py.VFloat 0);
               ("liquidity_risk", Py.VFloat 0);
               ("tracking_risk", Py.VFloat 0);
               ("correlation_risk", Py.VFloat 0);
               ("overall_risk_level", Py.VStr "low");
               ("risk_alert", Py.VStr "无持仓，风险极低") ]).
Proof.
  intros H. unfold position.monitor_portfolio_risk_with,
    position.monitor_portfolio_risk_body.
  rewrite (held_codes_none positions H). reflexivity.
Qed.

(** X7.  A snapshot of the ordinary path can be read by both of its
    readers: the target position size is computed, and the risk summary
    finds its six metrics. *)
Theorem monitor_portfolio_risk_snapshot_readable
    (positions : list position.row) (snapshot : Py.dict)
    (market_condition : string) :
  position.monitor_portfolio_risk_body metrics positions = Py.Ok snapshot ->
  (exists size,
      position.target_position_size snapshot market_condition = Py.Ok size)
  /\ (exists m1 m2 m3 m4 m5 m6,
        position.risk_summary_metrics snapshot
        = Py.Ok [m1; m2; m3; m4; m5; m6]).
Proof.
  unfold position.monitor_portfolio_risk_body.
  destruct (position.held_codes positions) as [[|code codes]|e];
    [rewrite bind_ok|rewrite bind_ok|rewrite bind_raise; discriminate].
  - intros [= <-]. split; [eexists|eexists _, _, _, _, _, _]; reflexivity.
  - destruct (position.portfolio_volatility_of _ _);
      [rewrite bind_ok|rewrite bind_raise; discriminate].
    destruct (position.var_of _ _);
      [rewrite bind_ok|rewrite bind_raise; discriminate].
    destruct (position.max_drawdown_warning_of _ _);
      [rewrite bind_ok|rewrite bind_raise; discriminate].
    destruct (position.liquidity_risk_of _ _);
      [rewrite bind_ok|rewrite bind_raise; discriminate].
    destruct (position.tracking_risk_of _ _);
      [rewrite bind_ok|rewrite bind_raise; discriminate].
    destruct (position.correlation_risk_of _ _);
      [rewrite bind_ok|rewrite bind_raise; discriminate].
    intros [= <-]. split; [eexists|eexists _, _, _, _, _, _]; reflexivity.
Qed.

End RiskSnapshot.

Lemma monitor_portfolio_risk_without_codes_witness :
  position.monitor_portfolio_risk_with Samples.failing_metrics
    Samples.default_positions
  = Py.Ok (list_to_map
             [ ("portfolio_volatility", Py.VFloat 0);
               ("var_1d", Py.VFloat 0);
               ("max_drawdown_warning", Py.VFloat 0);
               ("liquidity_risk", Py.VFloat 0);
               ("tracking_risk", Py.VFloat 0);
               ("correlation_risk", Py.VFloat 0);
               ("overall_risk_level", Py.VStr "low");
               ("risk_alert", Py.VStr "无持仓，风险极低") ]%string).
Proof.
  apply (monitor_portfolio_risk_without_codes Samples.failing_metrics
           Samples.default_positions).
  repeat constructor; eexists; (split; [reflexivity|]); right; left;
    reflexivity.
Defined.

Lemma monitor_portfolio_risk_snapshot_readable_witness :
  exists snapshot : Py.dict,
    position.monitor_portfolio_risk_body
      (position.source_metrics Samples.bars_on_file
         (libm := Samples.identity_libm))
      [Samples.row_with_codes] = Py.Ok snapshot
    /\ ((exists size,
           position.target_position_size snapshot "bull"%string = Py.Ok size)
        /\ (exists m1 m2 m3 m4 m5 m6,
              position.risk_summary_metrics snapshot
              = Py.Ok [m1; m2; m3; m4; m5; m6])).
Proof.
  eexists. split; [reflexivity|].
  apply (monitor_portfolio_risk_snapshot_readable
           (position.source_metrics Samples.bars_on_file
              (libm := Samples.identity_libm))
           [Samples.row_with_codes] _ "bull"%string).
  reflexivity.
Defined.

(** ** The held codes *)

Section HeldCodes.
Local Open Scope string_scope.

Lemma rstrip_cons (c : ascii) (s : string) :
  Py.rstrip (String c s)
  = match Py.rstrip s with
    | EmptyString => if Py.isspace c then EmptyString else String c EmptyString
    | r => String c r
    end.
Proof. reflexivity. Qed.

Lemma rstrip_idempotent (s : string) : Py.rstrip (Py.rstrip s) = Py.rstrip s.
Proof.
  induction s as [|c s IH]; [reflexivity|]. rewrite rstrip_cons.
  destruct (Py.rstrip s) as [|d r] eqn:Hr.
  - destruct (Py.isspace c) eqn:Hc; [reflexivity|].
    rewrite rstrip_cons. cbn [Py.rstrip]. now rewrite Hc.
  - rewrite rstrip_cons, IH. reflexivity.
Qed.

Lemma rstrip_keeps_head (c : ascii) (s : string) :
  Py.isspace c = false -> exists r, Py.rstrip (String c s) = String c r.
Proof.
  intros Hc. cbn [Py.rstrip]. destruct (Py.rstrip s); rewrite ?Hc; eauto.
Qed.

Lemma lstrip_head (s : string) :
  Py.lstrip s = "" \/ exists c r, Py.lstrip s = String c r /\ Py.isspace c = false.
Proof.
  induction s as [|c s IH]; [now left|]. cbn [Py.lstrip].
  destruct (Py.isspace c) eqn:Hc; [exact IH|right; eauto].
Qed.

Lemma strip_idempotent (s : string) : Py.strip (Py.strip s) = Py.strip s.
Proof.
  unfold Py.strip.
  destruct (lstrip_head s) as [->|(c & r & -> & Hc)]; [reflexivity|].
  destruct (rstrip_keeps_head c r Hc) as (r' & Hr).
  assert (Hl : Py.lstrip (Py.rstrip (String c r)) = Py.rstrip (String c r)).
  { rewrite Hr. cbn [Py.lstrip]. now rewrite Hc. }
  rewrite Hl. apply rstrip_idempotent.
Qed.

Lemma lstrip_chars (ch : ascii) (s : string) :
  In ch (list_ascii_of_string (Py.lstrip s)) -> In ch (list_ascii_of_string s).
Proof.
  induction s as [|c s IH]; [easy|]. cbn [Py.lstrip].
  destruct (Py.isspace c); [|easy]. intros H. right. auto.
Qed.

Lemma rstrip_chars (ch : ascii) (s : string) :
  In ch (list_ascii_of_string (Py.rstrip s)) -> In ch (list_ascii_of_string s).
Proof.
  induction s as [|c s IH]; [easy|]. cbn [Py.rstrip].
  destruct (Py.rstrip s) as [|d r].
  - destruct (Py.isspace c); [easy|]. intros [->|[]]. now left.
  - intros [->|H]; [now left|]. right. auto.
Qed.

Lemma split_pieces_without_separator (sep : ascii) (s : string) :
  Forall (fun piece => ~ In sep (list_ascii_of_string piece)) (Py.split sep s).
Proof.
  induction s as [|c s IH]; [repeat constructor; easy|].
  cbn [Py.split]. destruct (Ascii.eqb_spec c sep) as [->|Hne].
  - constructor; [easy|exact IH].
  - destruct (Py.split sep s) as [|piece rest].
    + repeat constructor. intros [->|[]]. contradiction.
    + inversion IH as [|? ? Hpiece Hrest]; subst. constructor; [|exact Hrest].
      intros [->|H]; [contradiction|]. auto.
Qed.

Abbreviation clean_code := Spec.clean_code.

(** X8.  Every code that the first loop of [monitor_portfolio_risk]
    collects is a non-empty piece of a code cell, stripped of surrounding
    white space and free of commas. *)
Theorem held_codes_clean (positions : list position.row) (codes : list string) :
  position.held_codes positions = Py.Ok codes ->
  Forall clean_code codes.
Proof.
  revert codes. induction positions as [|position positions IH];
    intros codes; cbn [position.held_codes].
  - intros [= <-]. constructor.
  - destruct (Py.getitem position "ETF代码") as [c|];
      [rewrite bind_ok|rewrite bind_raise; discriminate].
    destruct (position.held_codes positions) as [rest|];
      [rewrite bind_ok|rewrite bind_raise; discriminate].
    intros [= <-]. apply Forall_app. split; [|now apply IH].
    destruct (negb (position.isna c) && position.truthy c); [|constructor].
    apply List.Forall_forall. intros code Hin.
    apply filter_In in Hin as [Hin Hne].
    apply in_map_iff in Hin as (piece & <- & Hpiece).
    pose proof (split_pieces_without_separator "," (position.str_cell c))
      as Hsplit.
    rewrite List.Forall_forall in Hsplit. specialize (Hsplit piece Hpiece).
    repeat split.
    + intros Hempty. rewrite Hempty in Hne. discriminate.
    + apply strip_idempotent.
    + intros H. apply Hsplit. unfold Py.strip in H.
      now apply lstrip_chars, rstrip_chars.
Qed.

Lemma held_codes_clean_witness :
  Forall clean_code ["510300"; "510500"].
Proof.
  apply (held_codes_clean [Samples.row_with_codes] ["510300"; "510500"]).
  vm_compute. reflexivity.
Defined.

End HeldCodes.

(** ** Scoring: short histories, missing columns, weight tables *)

Section ScoreEdges.
Local Open Scope string_scope.
Local Open Scope float_scope.

Context {libm : Np.Libm}.
Variable all_etf_list : list (string * etf_scoring.size_cell).

(** X9.  On fewer than 30 rows [calculate_etf_score] returns 0 and leaves
    the caller's frame as it is, with or without a date column. *)
Theorem calculate_etf_score_short_history
    (cfg : Config.t) (etf_code : string) (df : Pd.DataFrame)
    (w : option (list (string * float))) :
  (Pd.len df < 30)%nat ->
  etf_scoring.calculate_etf_score all_etf_list cfg etf_code df w = (0, df).
Proof.
  intros Hlen. apply Nat.ltb_lt in Hlen.
  unfold etf_scoring.calculate_etf_score.
  destruct (Pd.has_column df Config.DATE_COL).
  - unfold Pd.sort_values.
    destruct (Pd.data df !! Config.DATE_COL); [|reflexivity].
    unfold Pd.len in *. cbn [Pd.index]. now rewrite Hlen.
  - cbn [mret result_ret]. now rewrite Hlen.
Qed.

(** X10.  Without a turnover-amount, spread, bid-volume, ask-volume and
    turnover-rate column the liquidity score is the neutral blend
    50*0.4 + 60*0.3 + 50*0.2 + 50*0.1 = 53. *)
Theorem calculate_liquidity_score_neutral (df : Pd.DataFrame) :
  Pd.data df !! Config.AMOUNT_COL = None ->
  Pd.data df !! Config.BID_ASK_SPREAD_COL = None ->
  Pd.data df !! Config.BID_VOLUME_COL = None ->
  Pd.data df !! Config.ASK_VOLUME_COL = None ->
  Pd.data df !! Config.TURNOVER_COL = None ->
  etf_scoring.calculate_liquidity_score df = 53.
Proof.
  intros H1 H2 H3 H4 H5. unfold etf_scoring.calculate_liquidity_score.
  rewrite H1, H2, H3, H4, H5. vm_compute. reflexivity.
Qed.

End ScoreEdges.

Lemma calculate_etf_score_short_history_witness :
  etf_scoring.calculate_etf_score (libm := Samples.identity_libm) []
    Config.default "510500" Samples.moving_bars None
  = (0%float, Samples.moving_bars).
Proof.
  apply (calculate_etf_score_short_history (libm := Samples.identity_libm)
           [] Config.default "510500"%string Samples.moving_bars None).
  vm_compute. lia.
Defined.

Lemma calculate_liquidity_score_neutral_witness :
  etf_scoring.calculate_liquidity_score (libm := Samples.identity_libm)
    Samples.flat_bars = 53%float.
Proof.
  apply (calculate_liquidity_score_neutral (libm := Samples.identity_libm)
           Samples.flat_bars); reflexivity.
Defined.

Section WeightTable.
Local Open Scope string_scope.
Local Open Scope float_scope.

Lemma odict_set_keys {V} (d : list (string * V)) (k : string) (v x : V) :
  Py.odict_get d k = Py.Ok x -> map fst (Py.odict_set d k v) = map fst d.
Proof.
  induction d as [|[k' v'] d IH]; cbn [Py.odict_get Py.odict_set];
    [discriminate|].
  destruct (String.eqb k' k); [reflexivity|].
  intros H. cbn [map fst]. now rewrite IH.
Qed.

Lemma odict_iadd_keys d k c d' :
  Py.odict_iadd d k c = Py.Ok d' -> map fst d' = map fst d.
Proof.
  unfold Py.odict_iadd. destruct (Py.odict_get d k) eqn:H; [|discriminate].
  intros [= <-]. eapply odict_set_keys, H.
Qed.

Lemma odict_isub_keys d k c d' :
  Py.odict_isub d k c = Py.Ok d' -> map fst d' = map fst d.
Proof.
  unfold Py.odict_isub. destruct (Py.odict_get d k) eqn:H; [|discriminate].
  intros [= <-]. eapply odict_set_keys, H.
Qed.

(** X11.  For any table of base weights and any regime label, the table
    that [adjust_score_weights] returns has the keys of the base table, in
    the same order: the adjustment changes values only. *)
Theorem adjust_score_weights_keys
    (cfg : Config.t) (market_condition : string)
    (w : list (string * float)) :
  etf_scoring.adjust_score_weights cfg market_condition = Py.Ok w ->
  map fst w = map fst (Config.BASE_SCORE_WEIGHTS cfg).
Proof.
  unfold etf_scoring.adjust_score_weights.
  assert (Hnorm : forall (d : list (string * float)) total,
             map fst (map (fun kv => (fst kv, snd kv / total)) d)
             = map fst d).
  { intros d total. rewrite map_map. reflexivity. }
  destruct (String.eqb market_condition "bear").
  - destruct (Py.odict_iadd _ "risk" _) as [d1|] eqn:H1;
      [rewrite bind_ok|rewrite !bind_raise; discriminate].
    destruct (Py.odict_isub d1 "return" _) as [d2|] eqn:H2;
      [rewrite bind_ok|rewrite !bind_raise; discriminate].
    destruct (Py.odict_iadd d2 "premium" _) as [d3|] eqn:H3;
      [rewrite bind_ok|rewrite bind_raise; discriminate].
    intros [= <-]. rewrite Hnorm.
    apply odict_iadd_keys in H1, H3. apply odict_isub_keys in H2.
    congruence.
  - destruct (String.eqb market_condition "bull").
    + destruct (Py.odict_iadd _ "return" _) as [d1|] eqn:H1;
        [rewrite bind_ok|rewrite !bind_raise; discriminate].
      destruct (Py.odict_isub d1 "risk" _) as [d2|] eqn:H2;
        [rewrite bind_ok|rewrite !bind_raise; discriminate].
      destruct (Py.odict_isub d2 "tracking" _) as [d3|] eqn:H3;
        [rewrite bind_ok|rewrite bind_raise; discriminate].
      intros [= <-]. rewrite Hnorm.
      apply odict_iadd_keys in H1. apply odict_isub_keys in H2, H3.
      congruence.
    + rewrite bind_ok. intros [= <-]. apply Hnorm.
Qed.

End WeightTable.

Lemma adjust_score_weights_keys_witness :
  exists w : list (string * float),
    etf_scoring.adjust_score_weights Config.default "bear" = Py.Ok w
    /\ map fst w = map fst (Config.BASE_SCORE_WEIGHTS Config.default).
Proof.
  eexists. split; [vm_compute; reflexivity|].
  apply (adjust_score_weights_keys Config.default "bear"%string).
  vm_compute. reflexivity.
Defined.

(** ** Risk-parity weights with and without data *)

Section RiskParityEdges.
Local Open Scope float_scope.

Variable load_etf_daily_data : string -> Pd.DataFrame.

(** X12.  When [calculate_risk_parity_weights] returns, it returns one
    weight per selected row.  When no selected row has bars on file, every
    row gets the fallback volatility 0.1 and all the weights are equal; as
    soon as one row has bars on file, the answer is that of the handler,
    [1.0/n] for each of the [n] rows. *)
Theorem calculate_risk_parity_weights_without_data
    (etfs : list position.candidate) :
  (forall weights : list float,
      position.calculate_risk_parity_weights load_etf_daily_data etfs
      = Py.Ok weights ->
      length weights = length etfs)
  /\ ((forall etf, In etf etfs ->
          Pd.empty (load_etf_daily_data (position.etf_code etf)) = true) ->
      position.calculate_risk_parity_weights load_etf_daily_data etfs
      = Py.Ok (repeat (1 / 0.1 / Np.sum (repeat (1 / 0.1) (length etfs)))
                 (length etfs)))
  /\ ((exists etf, In etf etfs
                   /\ Pd.empty (load_etf_daily_data (position.etf_code etf))
                      = false) ->
      position.calculate_risk_parity_weights load_etf_daily_data etfs
      = position.equal_weights (length etfs)).
Proof.
  destruct (calculate_risk_parity_weights_cases load_etf_daily_data etfs)
    as [[Hall E]|[Hex E]]; rewrite E; split; [|split| |split].
  - intros weights [= <-]. apply repeat_length.
  - reflexivity.
  - intros (etf & Hin & Hbars). rewrite List.Forall_forall in Hall.
    specialize (Hall etf Hin). congruence.
  - intros weights. unfold position.equal_weights.
    destruct (Py.float_of_int _) as [x|]; [rewrite bind_ok|discriminate].
    destruct (Py.truediv false 1 x) as [w|]; [rewrite bind_ok|discriminate].
    intros [= <-]. apply repeat_length.
  - intros Hempty. apply List.Exists_exists in Hex as (etf & Hin & Hbars).
    now specialize (Hempty etf Hin).
  - reflexivity.
Qed.

End RiskParityEdges.

(** ** Message chunking *)

Section MessageChunks.
Import wechat_push.

Lemma split_lines_nonempty (s : str) : split_lines s <> [].
Proof.
  destruct s as [|c s]; cbn [split_lines]; [discriminate|].
  destruct (N.eqb c newline); [discriminate|].
  destruct (split_lines s); discriminate.
Qed.

Lemma join_lines_cons (line : str) (lines : list str) :
  lines <> [] ->
  join_lines (line :: lines) = line ++ newline :: join_lines lines.
Proof. destruct lines; [congruence|reflexivity]. Qed.

Lemma join_split_lines (s : str) : join_lines (split_lines s) = s.
Proof.
  induction s as [|c s IH]; [reflexivity|]. cbn [split_lines].
  destruct (N.eqb_spec c newline) as [->|Hc].
  - rewrite join_lines_cons by apply split_lines_nonempty.
    cbn [app]. now rewrite IH.
  - pose proof (split_lines_nonempty s) as Hne.
    destruct (split_lines s) as [|line lines]; [congruence|].
    destruct lines as [|line' lines].
    + cbn [join_lines] in *. now rewrite IH.
    + rewrite join_lines_cons in * by discriminate.
      cbn [app]. now rewrite IH.
Qed.

Lemma join_lines_app (l1 l2 : list str) :
  l1 <> [] -> l2 <> [] ->
  join_lines (l1 ++ l2) = join_lines l1 ++ newline :: join_lines l2.
Proof.
  induction l1 as [|a l1 IH]; intros H1 H2; [congruence|].
  destruct l1 as [|b l1].
  - cbn [app]. now rewrite join_lines_cons.
  - change ((a :: b :: l1) ++ l2) with (a :: ((b :: l1) ++ l2)).
    rewrite join_lines_cons by (cbn [app]; discriminate).
    rewrite IH by (discriminate || assumption).
    rewrite (join_lines_cons a (b :: l1)) by discriminate.
    now rewrite <- app_assoc.
Qed.

(** Flushing a group of lines early does not change what the chunks join
    to. *)
Lemma join_lines_flush (chunks : list str) (a b : str) :
  join_lines (chunks ++ [a; b]) = join_lines (chunks ++ [a ++ newline :: b]).
Proof.
  induction chunks as [|c chunks IH]; [reflexivity|].
  cbn [app]. rewrite !join_lines_cons by (destruct chunks; discriminate).
  now rewrite IH.
Qed.

Lemma chunk_lines_join (lines chunks current_chunk : list str) :
  current_chunk ++ lines <> [] ->
  join_lines (chunk_lines lines chunks current_chunk)
  = join_lines (chunks ++ [join_lines (current_chunk ++ lines)]).
Proof.
  revert chunks current_chunk.
  induction lines as [|line lines IH]; intros chunks current_chunk Hne.
  - rewrite app_nil_r in *. cbn [chunk_lines].
    destruct current_chunk; [congruence|reflexivity].
  - cbn [chunk_lines].
    destruct (_MESSAGE_CHUNK_SIZE <? _)%nat; [destruct current_chunk as [|l0 cur]|].
    + rewrite IH by (cbn [app]; discriminate). reflexivity.
    + rewrite IH by (cbn [app]; discriminate).
      rewrite <- app_assoc. cbn [app].
      rewrite join_lines_flush.
      rewrite <- join_lines_app by discriminate. reflexivity.
    + rewrite IH by (destruct current_chunk; discriminate).
      now rewrite <- app_assoc.
Qed.

(** X13.  Joining the chunks of [_check_message_length] with newlines gives
    the message back: no character is lost, added or moved, whatever the
    message and however it is cut. *)
Theorem check_message_length_round_trip (message : str) :
  join_lines (_check_message_length message) = message.
Proof.
  unfold _check_message_length.
  destruct (length message <=? _MAX_MESSAGE_LENGTH)%nat; [reflexivity|].
  rewrite chunk_lines_join by (cbn [app]; apply split_lines_nonempty).
  cbn [app join_lines]. apply join_split_lines.
Qed.

Lemma split_lines_no_newline (s : str) :
  Forall (fun line => ~ In newline line) (split_lines s).
Proof.
  induction s as [|c s IH]; cbn [split_lines].
  - constructor; [intros []|constructor].
  - destruct (N.eqb_spec c newline) as [->|Hc].
    + constructor; [intros []|exact IH].
    + destruct (split_lines s) as [|line lines].
      * constructor; [|constructor]. intros [H|[]]. congruence.
      * inversion IH as [|? ? Hline Hlines]; subst.
        constructor; [|exact Hlines]. intros [H|H]; [congruence|tauto].
Qed.

Lemma length_join_lines (lines : list str) :
  lines <> [] -> S (length (join_lines lines)) = chunk_size lines.
Proof.
  induction lines as [|a lines IH]; intros Hne; [congruence|].
  destruct lines as [|b lines].
  - cbn. lia.
  - rewrite join_lines_cons by discriminate.
    rewrite length_app. cbn [length].
    rewrite IH by discriminate.
    unfold chunk_size, list_sum. cbn [map fold_right]. lia.
Qed.

Lemma chunk_size_app (l1 l2 : list str) :
  chunk_size (l1 ++ l2) = chunk_size l1 + chunk_size l2.
Proof.
  unfold chunk_size. rewrite map_app. apply list_sum_app.
Qed.

Abbreviation chunk_ok := Spec.chunk_ok.

Lemma chunk_lines_ok (lines chunks current_chunk : list str) :
  Forall (fun line => ~ In newline line) lines ->
  Forall chunk_ok chunks ->
  (current_chunk <> [] -> chunk_ok (join_lines current_chunk)) ->
  Forall chunk_ok (chunk_lines lines chunks current_chunk).
Proof.
  revert chunks current_chunk.
  induction lines as [|line lines IH];
    intros chunks current_chunk Hlines Hchunks Hcur; cbn [chunk_lines].
  - destruct current_chunk; [exact Hchunks|].
    apply Forall_app. split; [exact Hchunks|].
    constructor; [|constructor]. now apply Hcur.
  - inversion Hlines as [|? ? Hline Hrest]; subst.
    destruct (Nat.ltb_spec _MESSAGE_CHUNK_SIZE
                (chunk_size current_chunk + length line + 1)) as [Hbig|Hfit];
      [destruct current_chunk as [|l0 cur]|].
    + apply IH; [exact Hrest|exact Hchunks|]. intros _. now right.
    + apply IH; [exact Hrest| |intros _; now right].
      apply Forall_app. split; [exact Hchunks|].
      constructor; [|constructor]. now apply Hcur.
    + apply IH; [exact Hrest|exact Hchunks|]. intros _. left.
      pose proof (length_join_lines (current_chunk ++ [line])) as Hlen.
      rewrite chunk_size_app in Hlen. unfold chunk_size at 2 in Hlen.
      unfold list_sum in Hlen. cbn [map fold_right] in Hlen.
      specialize (Hlen ltac:(destruct current_chunk; discriminate)). lia.
Qed.

(** X14.  A message over the length limit is cut so that every chunk is
    shorter than the chunk size, or else is one single line of the message:
    a chunk can exceed the size only when one line alone does. *)
Theorem check_message_length_chunk_bound (message : str) :
  _MAX_MESSAGE_LENGTH < length message ->
  Forall (fun chunk =>
            length chunk < _MESSAGE_CHUNK_SIZE \/ ~ In newline chunk)
         (_check_message_length message).
Proof.
  intros Hlong. unfold _check_message_length.
  destruct (Nat.leb_spec (length message) _MAX_MESSAGE_LENGTH) as [Hle|_];
    [lia|].
  apply (chunk_lines_ok (split_lines message) [] []).
  - apply split_lines_no_newline.
  - constructor.
  - congruence.
Qed.

End MessageChunks.

(** ** Selection over the placeholder correlation matrix *)

Section PlaceholderSelection.
Local Open Scope float_scope.

Lemma lookup_list_to_map_keys {V} (g : string -> V) (l : list string)
    (k : string) :
  k ∈ l ->
  (list_to_map (map (fun r => (r, g r)) l) : gmap string V) !! k
  = Some (g k).
Proof.
  induction l as [|a l IH]; intros Hk; [now apply not_elem_of_nil in Hk|].
  cbn [map list_to_map foldr]. destruct (decide (a = k)) as [->|Hne].
  - apply lookup_insert_eq.
  - rewrite lookup_insert_ne by exact Hne. apply IH.
    apply elem_of_cons in Hk as [->|Hk]; [congruence|exact Hk].
Qed.

Variable etfs : list position.candidate.

Lemma loc_calculate_correlation_matrix (r c : string) :
  r ∈ map position.etf_code etfs -> c ∈ map position.etf_code etfs ->
  position.loc (position.calculate_correlation_matrix etfs) r c
  = Py.Ok (if String.eqb r c then 1 else 0.5).
Proof.
  intros Hr Hc. unfold position.loc, position.calculate_correlation_matrix,
    Py.getitem.
  rewrite (lookup_list_to_map_keys
             (fun r => list_to_map
                         (map (fun c => (c, if String.eqb r c then 1 else 0.5))
                              (map position.etf_code etfs))) _ r Hr).
  rewrite bind_ok.
  now rewrite (lookup_list_to_map_keys
                 (fun c => if String.eqb r c then 1 else 0.5) _ c Hc).
Qed.

Variable max_holdings : Z.
Variable min_correlation : float.
Hypothesis threshold : (min_correlation <? 0.5) = false.

Lemma is_low_correlation_placeholder
    (etf : position.candidate) (selected : list position.candidate) :
  position.etf_code etf ∈ map position.etf_code etfs ->
  Forall (fun sel =>
            position.etf_code sel ∈ map position.etf_code etfs
            /\ position.etf_code etf <> position.etf_code sel) selected ->
  position.is_low_correlation (position.calculate_correlation_matrix etfs)
    min_correlation etf selected = Py.Ok true.
Proof.
  intros Hetf. induction 1 as [|sel selected [Hsel Hne] _ IH];
    cbn [position.is_low_correlation]; [reflexivity|].
  rewrite (loc_calculate_correlation_matrix _ _ Hetf Hsel), bind_ok.
  apply String.eqb_neq in Hne. rewrite Hne, threshold. exact IH.
Qed.

Lemma select_loop_placeholder (rows selected : list position.candidate) :
  NoDup (map position.etf_code (selected ++ rows)) ->
  (forall x, x ∈ selected ++ rows ->
             position.etf_code x ∈ map position.etf_code etfs) ->
  selected <> [] ->
  (length selected < Z.to_nat (Z.max max_holdings 2))%nat ->
  position.select_loop (position.calculate_correlation_matrix etfs)
    max_holdings min_correlation rows selected
  = Py.Ok (firstn (Z.to_nat (Z.max max_holdings 2)) (selected ++ rows)).
Proof.
  revert selected.
  induction rows as [|etf rows IH]; intros selected Hdup Hin Hne Hlen.
  - cbn [position.select_loop mret result_ret]. rewrite app_nil_r.
    now rewrite firstn_all2 by lia.
  - cbn [position.select_loop]. destruct selected as [|s0 sel]; [congruence|].
    rewrite is_low_correlation_placeholder, bind_ok.
    + assert (Happ : ((s0 :: sel) ++ [etf]) ++ rows
                     = (s0 :: sel) ++ etf :: rows)
        by now rewrite <- app_assoc.
      destruct (Z.geb_spec (Z.of_nat (length ((s0 :: sel) ++ [etf])))
                  max_holdings) as [Hfull|Hroom].
      * cbn [mret result_ret]. f_equal. rewrite <- Happ.
        rewrite length_app in *. cbn [length] in *.
        replace (Z.to_nat (Z.max max_holdings 2))
          with (length ((s0 :: sel) ++ [etf]) + 0)%nat
          by (rewrite length_app; cbn [length]; lia).
        rewrite firstn_app_2. cbn [firstn]. now rewrite app_nil_r.
      * rewrite IH; [now rewrite Happ|now rewrite Happ|now rewrite Happ| |].
        -- discriminate.
        -- rewrite length_app in *. cbn [length] in *. lia.
    + apply Hin. apply elem_of_app. right. apply list_elem_of_here.
    + apply Forall_forall. intros x Hx. split.
      * apply Hin. apply elem_of_app. now left.
      * rewrite map_app in Hdup. apply NoDup_app in Hdup as (_ & Hdis & _).
        intros Heq. apply (Hdis (position.etf_code x)).
        -- apply list_elem_of_In, in_map, list_elem_of_In. exact Hx.
        -- rewrite <- Heq. cbn [map]. apply list_elem_of_here.
Qed.

(** X15.  With the placeholder matrix of [calculate_correlation_matrix]
    (0.5 between any two distinct codes) and a threshold that is not below
    0.5, the correlation test rejects nothing: the selection is the first
    max(max_holdings, 2) rows of the ranking, or all of them when there are
    fewer. *)
Theorem select_low_correlation_etfs_placeholder :
  NoDup (map position.etf_code etfs) ->
  position.select_low_correlation_etfs etfs
    (position.calculate_correlation_matrix etfs) max_holdings min_correlation
  = firstn (Z.to_nat (Z.max max_holdings 2)) (position.sort_by_score etfs).
Proof.
  intros Hdup. unfold position.select_low_correlation_etfs.
  pose proof (sort_by_score_perm etfs) as Hperm.
  destruct (position.sort_by_score etfs) as [|etf rows] eqn:E.
  - cbn [position.select_loop mret result_ret]. now rewrite firstn_nil.
  - cbn [position.select_loop].
    rewrite (select_loop_placeholder rows [etf]); [reflexivity| | | |].
    + cbn [app].
      assert (Hcodes : map position.etf_code (etf :: rows)
                       ≡ₚ map position.etf_code etfs)
        by now apply Permutation_map.
      now rewrite Hcodes.
    + intros x Hx. cbn [app] in Hx. rewrite Hperm in Hx.
      apply list_elem_of_In, in_map, list_elem_of_In. exact Hx.
    + discriminate.
    + cbn [length]. lia.
Qed.

End PlaceholderSelection.

Lemma select_low_correlation_etfs_placeholder_witness :
  position.select_low_correlation_etfs Samples.two_candidates
    (position.calculate_correlation_matrix Samples.two_candidates) 1 0.7
  = firstn (Z.to_nat (Z.max 1 2))
      (position.sort_by_score Samples.two_candidates).
Proof.
  apply (select_low_correlation_etfs_placeholder Samples.two_candidates
           1%Z 0.7%float).
  - reflexivity.
  - apply (bool_decide_unpack _). vm_compute. exact I.
Defined.

Lemma check_message_length_chunk_bound_witness :
  Forall (fun chunk =>
            length chunk < wechat_push._MESSAGE_CHUNK_SIZE
            \/ ~ In wechat_push.newline chunk)
         (wechat_push._check_message_length Samples.long_report).
Proof.
  apply (check_message_length_chunk_bound Samples.long_report).
  apply Nat.ltb_lt. vm_compute. reflexivity.
Defined.

(** ** Trading signals *)

Lemma getitem_missing {V} (d : gmap string V) (k : string) :
  d !! k = None -> Py.getitem d k = Py.Raise (Py.KeyError k).
Proof. intros H. unfold Py.getitem. now rewrite H. Qed.

Section TradingSignals.
Local Open Scope string_scope.

Lemma signal_strengths_bounds
    (ma_bullish ma_bearish macd_bullish macd_bearish : bool)
    (rsi_signal volume_signal bb_signal : string) (trend_strength : float) :
  let bs := position.signal_strengths ma_bullish ma_bearish macd_bullish
              macd_bearish rsi_signal volume_signal bb_signal
              trend_strength in
  (0 <= fst bs /\ 0 <= snd bs /\ fst bs + snd bs <= 8)%Z.
Proof.
  unfold position.signal_strengths.
  destruct ma_bullish, ma_bearish, macd_bullish, macd_bearish,
    (String.eqb rsi_signal "oversold"),
    (String.eqb rsi_signal "overbought"),
    (String.eqb volume_signal "bullish"),
    (String.eqb volume_signal "bearish"),
    (String.eqb bb_signal "lower_band"),
    (String.eqb bb_signal "upper_band"),
    (0.7 <? trend_strength)%float, (trend_strength <? 0.3)%float;
    cbn; lia.
Qed.

Lemma final_signal_cases (buy_strength sell_strength confirm_threshold : Z) :
  (3 <= confirm_threshold)%Z ->
  (0 <= buy_strength /\ 0 <= sell_strength
   /\ buy_strength + sell_strength <= 8)%Z ->
  let signal :=
    position.final_signal buy_strength sell_strength confirm_threshold in
  (fst signal = "none" /\ snd signal = 0%Z)
  \/ ((fst signal = "buy" \/ fst signal = "sell")
      /\ (confirm_threshold <= snd signal <= 8)%Z).
Proof.
  intros Hthr Hb. unfold position.final_signal.
  destruct (Z.geb_spec buy_strength confirm_threshold);
    [|destruct (Z.geb_spec sell_strength confirm_threshold)];
    cbn [fst snd]; [right|right|left]; (split; [auto|lia]).
Qed.

Variable factors : position.signal_factors.
Variable cfg : Config.t.
Variable etf_code : string.
Variable df : Pd.DataFrame.
Variable position_type : string.

Ltac factor_call c :=
  let e := fresh "e" in
  destruct c as [?|e]; [rewrite bind_ok|rewrite bind_raise].

(** X16.  Whatever the six factors answer and whatever the configuration
    holds, the dictionary of [generate_trading_signals] carries a signal
    type and a strength that fit together: "none" with strength 0, or "buy"
    or "sell" with a strength between 3 and 8. *)
Theorem generate_trading_signals_consistent :
  exists (signal_type : string) (signal_strength : Z),
    position.generate_trading_signals factors cfg etf_code df position_type
      !! "signal_type" = Some (Py.VStr signal_type)
    /\ position.generate_trading_signals factors cfg etf_code df
         position_type !! "signal_strength" = Some (Py.VInt signal_strength)
    /\ ((signal_type = "none" /\ signal_strength = 0%Z)
        \/ ((signal_type = "buy" \/ signal_type = "sell")
            /\ (3 <= signal_strength <= 8)%Z)).
Proof.
  assert (Hnone : exists (signal_type : string) (signal_strength : Z),
             position.no_signal !! "signal_type" = Some (Py.VStr signal_type)
             /\ position.no_signal !! "signal_strength"
                = Some (Py.VInt signal_strength)
             /\ ((signal_type = "none" /\ signal_strength = 0%Z)
                 \/ ((signal_type = "buy" \/ signal_type = "sell")
                     /\ (3 <= signal_strength <= 8)%Z))).
  { exists "none", 0%Z. split; [reflexivity|split; [reflexivity|]]. now left. }
  unfold position.generate_trading_signals,
    position.generate_trading_signals_body.
  destruct (position.ma_signal_of factors df 5 20)
    as [[[ma_bullish ma_bearish] df1]|e];
    [rewrite bind_ok|rewrite bind_raise; exact Hnone].
  destruct (position.macd_signal_of factors df1)
    as [[[macd_bullish macd_bearish] df2]|e];
    [rewrite bind_ok|rewrite bind_raise; exact Hnone].
  destruct (position.rsi_signal_of factors df2) as [rsi_signal|e];
    [rewrite bind_ok|rewrite bind_raise; exact Hnone].
  destruct (position.volume_signal_of factors df2)
    as [[volume_signal df3]|e];
    [rewrite bind_ok|rewrite bind_raise; exact Hnone].
  destruct (position.bollinger_bands_signal_of factors df3)
    as [[bb_signal df4]|e];
    [rewrite bind_ok|rewrite bind_raise; exact Hnone].
  destruct (position.trend_strength_of factors df4) as [trend_strength|e];
    [rewrite bind_ok|rewrite bind_raise; exact Hnone].
  pose proof (signal_strengths_bounds ma_bullish ma_bearish macd_bullish
                macd_bearish rsi_signal volume_signal bb_signal
                trend_strength) as Hbounds.
  cbv zeta in Hbounds.
  destruct (position.signal_strengths _ _ _ _ _ _ _ _)
    as [buy_strength sell_strength].
  cbn [fst snd] in Hbounds.
  destruct (Py.getitem (Config.STRATEGY_PARAMETERS cfg) position_type)
    as [params|e]; [rewrite bind_ok|rewrite bind_raise; exact Hnone].
  destruct (Py.getitem params "confirm_days") as [confirm_days|e];
    [rewrite bind_ok|rewrite bind_raise; exact Hnone].
  destruct (position.gt_one confirm_days) as [several|e];
    [rewrite bind_ok|rewrite bind_raise; exact Hnone].
  pose proof (final_signal_cases buy_strength sell_strength
                (if several then 4%Z else 3%Z)
                ltac:(destruct several; lia) Hbounds) as Hfinal.
  cbv zeta in Hfinal.
  destruct (position.final_signal _ _ _) as [signal_type signal_strength].
  cbn [fst snd] in Hfinal.
  exists signal_type, signal_strength.
  split; [reflexivity|split; [reflexivity|]].
  destruct Hfinal as [Hfinal|[Hty Hst]]; [now left|right].
  split; [exact Hty|]. destruct several; lia.
Qed.

(** X17.  For a position type that [Config.STRATEGY_PARAMETERS] does not
    list, [generate_trading_signals] never gives a signal: whatever the
    factors answer, it returns the two-entry dictionary of its handler,
    "none" with strength 0 and no factor read-outs. *)
Theorem generate_trading_signals_unknown_position_type :
  Config.STRATEGY_PARAMETERS cfg !! position_type = None ->
  position.generate_trading_signals factors cfg etf_code df position_type
  = position.no_signal.
Proof.
  intros Hunknown.
  unfold position.generate_trading_signals,
    position.generate_trading_signals_body.
  destruct (position.ma_signal_of factors df 5 20)
    as [[[ma_bullish ma_bearish] df1]|e];
    [rewrite bind_ok|reflexivity].
  destruct (position.macd_signal_of factors df1)
    as [[[macd_bullish macd_bearish] df2]|e];
    [rewrite bind_ok|reflexivity].
  destruct (position.rsi_signal_of factors df2) as [rsi_signal|e];
    [rewrite bind_ok|reflexivity].
  destruct (position.volume_signal_of factors df2)
    as [[volume_signal df3]|e];
    [rewrite bind_ok|reflexivity].
  destruct (position.bollinger_bands_signal_of factors df3)
    as [[bb_signal df4]|e];
    [rewrite bind_ok|reflexivity].
  destruct (position.trend_strength_of factors df4) as [trend_strength|e];
    [rewrite bind_ok|reflexivity].
  destruct (position.signal_strengths _ _ _ _ _ _ _ _)
    as [buy_strength sell_strength].
  now rewrite (getitem_missing _ _ Hunknown).
Qed.

End TradingSignals.

Lemma generate_trading_signals_unknown_position_type_witness :
  position.generate_trading_signals Samples.quiet_factors Config.default
    "510300" Samples.moving_bars "成长仓"
  = position.no_signal.
Proof.
  apply (generate_trading_signals_unknown_position_type
           Samples.quiet_factors Config.default "510300"%string
           Samples.moving_bars "成长仓"%string).
  vm_compute. reflexivity.
Defined.

(** ** The dynamic stop-loss ratio *)

Section StopLossRatio.
Local Open Scope string_scope.
Local Open Scope float_scope.

Variable calculate_atr : Pd.DataFrame -> Z -> float * Pd.DataFrame.
Variable calculate_volatility :
  Pd.DataFrame -> Py.result (float * Pd.DataFrame).
Variable array_stop_loss :
  list Py.value -> float -> float -> Py.result Py.value.

Variable cfg : Config.t.
Variable etf_code : string.
Variable df : Pd.DataFrame.
Variable position_type : string.

(** X18.  For a position type that [Config.STRATEGY_PARAMETERS] does not
    list, [calculate_dynamic_stop_loss] returns no default: the handler
    looks the position type up again and the [KeyError] leaves the
    function, whatever the frame holds. *)
Theorem calculate_dynamic_stop_loss_unknown_position_type :
  Config.STRATEGY_PARAMETERS cfg !! position_type = None ->
  position.calculate_dynamic_stop_loss calculate_atr calculate_volatility
    array_stop_loss cfg etf_code df position_type
  = Py.Raise (Py.KeyError position_type).
Proof.
  intros Hunknown.
  unfold position.calculate_dynamic_stop_loss,
    position.calculate_dynamic_stop_loss_body.
  assert (Hhandler : position.configured_stop_loss_ratio cfg position_type
                     = Py.Raise (Py.KeyError position_type)).
  { unfold position.configured_stop_loss_ratio.
    now rewrite (getitem_missing _ _ Hunknown). }
  destruct (calculate_atr df 20) as [atr df1].
  destruct (Nat.eqb (Pd.len df1) 0);
    [rewrite bind_raise; exact Hhandler|].
  destruct (Pd.col df1 "收盘") as [close|e];
    [rewrite bind_ok|rewrite !bind_raise; exact Hhandler].
  destruct (Pd.iloc close (-1)) as [current_price|e];
    [rewrite bind_ok|rewrite bind_raise; exact Hhandler].
  rewrite (getitem_missing _ _ Hunknown), bind_raise. exact Hhandler.
Qed.

(** X19.  When the configuration holds a float ratio for the position type,
    [calculate_dynamic_stop_loss] returns a float that is either that
    configured ratio (the handler's answer) or a ratio that is not below
    0.01 and not above 0.15. *)
Theorem calculate_dynamic_stop_loss_range (ratio : float) :
  position.configured_stop_loss_ratio cfg position_type
  = Py.Ok (Py.VFloat ratio) ->
  exists r : float,
    position.calculate_dynamic_stop_loss calculate_atr calculate_volatility
      array_stop_loss cfg etf_code df position_type
    = Py.Ok (Py.VFloat r)
    /\ (r = ratio \/ ((r <? 0.01) = false /\ (0.15 <? r) = false)).
Proof.
  intros Hratio.
  unfold position.calculate_dynamic_stop_loss,
    position.calculate_dynamic_stop_loss_body.
  assert (Hhandler : exists r : float,
             position.configured_stop_loss_ratio cfg position_type
             = Py.Ok (Py.VFloat r)
             /\ (r = ratio \/ ((r <? 0.01) = false /\ (0.15 <? r) = false))).
  { exists ratio. split; [exact Hratio|now left]. }
  destruct (calculate_atr df 20) as [atr df1].
  destruct (Nat.eqb (Pd.len df1) 0);
    [rewrite bind_raise; exact Hhandler|].
  destruct (Pd.col df1 "收盘") as [close|e];
    [rewrite bind_ok|rewrite !bind_raise; exact Hhandler].
  destruct (Pd.iloc close (-1)) as [current_price|e];
    [rewrite bind_ok|rewrite bind_raise; exact Hhandler].
  unfold position.configured_stop_loss_ratio in Hratio.
  destruct (Py.getitem (Config.STRATEGY_PARAMETERS cfg) position_type)
    as [params|e]; [rewrite bind_ok in *|discriminate Hratio].
  rewrite Hratio, bind_ok. cbn [Py.mul_float Py.to_float]. rewrite bind_ok.
  destruct (calculate_volatility df1) as [[volatility df2]|e];
    [rewrite bind_ok|rewrite bind_raise; exact Hhandler].
  cbv zeta. cbn [mret result_ret Py.try_except].
  eexists. split; [reflexivity|].
  right. rewrite max_min_is_clamp by reflexivity. split.
  - apply clamp_not_below. reflexivity.
  - apply clamp_not_above. reflexivity.
Qed.

End StopLossRatio.

Lemma calculate_dynamic_stop_loss_unknown_position_type_witness :
  position.calculate_dynamic_stop_loss Samples.atr_of_short_frame
    Samples.volatility_of Samples.no_array Config.default "510300"
    Samples.moving_bars "成长仓"
  = Py.Raise (Py.KeyError "成长仓").
Proof.
  apply (calculate_dynamic_stop_loss_unknown_position_type
           Samples.atr_of_short_frame Samples.volatility_of Samples.no_array
           Config.default "510300"%string Samples.moving_bars
           "成长仓"%string).
  vm_compute. reflexivity.
Defined.

Lemma calculate_dynamic_stop_loss_range_witness :
  exists r : float,
    position.calculate_dynamic_stop_loss Samples.atr_of_short_frame
      Samples.volatility_of Samples.no_array Config.default "510500"
      Samples.moving_bars "激进仓"
    = Py.Ok (Py.VFloat r)
    /\ (r = 0.08%float
        \/ ((r <? 0.01)%float = false /\ (0.15 <? r)%float = false)).
Proof.
  apply (calculate_dynamic_stop_loss_range
           Samples.atr_of_short_frame Samples.volatility_of Samples.no_array
           Config.default "510500"%string Samples.moving_bars
           "激进仓"%string 0.08%float).
  vm_compute. reflexivity.
Defined.
